(** * plgo/modulewriter.go: the module assembler and artifact emitter

    A shallow embedding of [modulewriter.go].  Go strings are byte strings
    ([string]); Go maps are [gmap]s; a Go function returning [(T, error)]
    returns a [result T]; code that touches the file system or runs a
    process is a state-passing computation over a [World].  Everything the
    file calls but does not define (the Go standard library, the operating
    system, and the other files of the package) is a field of [Env]. *)

From Stdlib Require Import Ascii.
From stdpp Require Import gmap strings list fin_maps.

Set Default Proof Using "Type".

(* ===================================================================== *)
(** ** Byte strings, as package [strings] sees them *)
(* ===================================================================== *)

Module Str.

Definition LF : string := String (ascii_of_nat 10) "".
Definition DQUOTE : string := String (ascii_of_nat 34) "".

(** [s[n:]] without the bounds check. *)
Fixpoint drop (n : nat) (s : string) : string :=
  match n, s with
  | O, _ => s
  | S _, EmptyString => EmptyString
  | S n', String _ s' => drop n' s'
  end.

(** [s[:n]] without the bounds check. *)
Fixpoint take (n : nat) (s : string) : string :=
  match n, s with
  | O, _ => EmptyString
  | S _, EmptyString => EmptyString
  | S n', String c s' => String c (take n' s')
  end.

(** The slice expression [s[lo:]]: Go faults with "slice bounds out of
    range" when [lo > len(s)]. *)
Definition slice_from (s : string) (lo : nat) : option string :=
  if decide (lo ≤ String.length s) then Some (drop lo s) else None.

(** [strings.HasPrefix(s, p)]; the argument order of [String.prefix] is
    the other way round. *)
Definition HasPrefix (s p : string) : bool := String.prefix p s.

(** [strings.HasSuffix(s, suffix)]. *)
Definition HasSuffix (s suffix : string) : bool :=
  HasPrefix (String.rev s) (String.rev suffix).

(** [strings.Index(s, old)]: the byte offset of the first occurrence of
    [old] in [s]; [None] stands for Go's [-1]. *)
Fixpoint Index (s old : string) : option nat :=
  if HasPrefix s old then Some O
  else match s with
       | EmptyString => None
       | String _ s' => S <$> Index s' old
       end.

(** [strings.Contains(s, sub)]. *)
Definition Contains (s sub : string) : bool := bool_decide (is_Some (Index s sub)).

(** [strings.Replace(s, old, new, 1)]: the first occurrence of [old] is
    replaced; a string without an occurrence is returned as it is. *)
Definition Replace1 (s old new : string) : string :=
  match Index s old with
  | None => s
  | Some j => take j s +:+ new +:+ drop (j + String.length old) s
  end.

(** Repeated [+=] over a slice of strings. *)
Fixpoint concat (l : list string) : string :=
  match l with
  | [] => ""
  | x :: l' => x +:+ concat l'
  end.

End Str.

(* ===================================================================== *)
(** ** Errors, results and the world *)
(* ===================================================================== *)

(** Go [error] values.  [Errorf msg] is [fmt.Errorf] with the verbs already
    filled in; [Wrapf prefix cause] is [fmt.Errorf(prefix + "%w", cause)];
    [SysErr] is an error made outside this file, and [notExist] is what
    [os.IsNotExist] answers on it. *)
Inductive error : Type :=
| SysErr (notExist : bool) (msg : string)
| Errorf (msg : string)
| Wrapf (prefix : string) (cause : error).

Global Instance error_eq_dec : EqDecision error.
Proof. solve_decision. Defined.

(** [err.Error()]. *)
Fixpoint error_text (e : error) : string :=
  match e with
  | SysErr _ msg => msg
  | Errorf msg => msg
  | Wrapf prefix cause => prefix +:+ error_text cause
  end.

(** [os.IsNotExist(err)] for a non-nil [err]. *)
Definition os_IsNotExist (e : error) : bool :=
  match e with
  | SysErr b _ => b
  | _ => false
  end.

(** What a call comes back with: a value with a nil error, a non-nil
    error, or a run-time panic that unwinds the caller. *)
Inductive result (A : Type) : Type :=
| Ok (a : A)
| Err (e : error)
| Panic (msg : string).
Global Arguments Ok {A} a.
Global Arguments Err {A} e.
Global Arguments Panic {A} msg.

Definition is_Err {A} (r : result A) : bool :=
  match r with Err _ => true | _ => false end.

(** Effects on the outside world, in the order they are attempted. *)
Inductive event : Type :=
| EvCreate (path : string)
| EvFormatNode (path : string)
| EvWriteString (path text : string)
| EvClose (path : string)
| EvWriteFile (path data : string)
| EvExec (cmd : string) (args : list string).

Global Instance event_eq_dec : EqDecision event.
Proof. solve_decision. Defined.

Record World : Type := mkWorld {
  files : gmap string string;
  trace : list event
}.

Definition log (ev : event) (w : World) : World :=
  {| files := files w; trace := trace w ++ [ev] |}.

Definition put_file (path data : string) (w : World) : World :=
  {| files := <[path := data]> (files w); trace := trace w |}.

Definition append_file (path text : string) (w : World) : World :=
  put_file path (default "" (files w !! path) +:+ text) w.

(** State-passing computations that may stop with an error or a panic. *)
Definition M (A : Type) : Type := World → result A * World.

Definition ret {A} (a : A) : M A := fun w => (Ok a, w).

Definition fail {A} (e : error) : M A := fun w => (Err e, w).

Definition bind {A B} (m : M A) (k : A → M B) : M B :=
  fun w =>
    match m w with
    | (Ok a, w') => k a w'
    | (Err e, w') => (Err e, w')
    | (Panic p, w') => (Panic p, w')
    end.

(** A pure call made from effectful code. *)
Definition lift {A} (r : result A) : M A := fun w => (r, w).

(** [if err != nil { return fmt.Errorf(prefix + "%w", err) }]. *)
Definition wrap {A} (prefix : string) (m : M A) : M A :=
  fun w =>
    match m w with
    | (Err e, w') => (Err (Wrapf prefix e), w')
    | other => other
    end.

Declare Scope go_scope.
Delimit Scope go_scope with go.
Notation "x <- m ;; k" := (bind m (fun x => k))
  (at level 100, m at next level, right associativity) : go_scope.
Notation "m ;;; k" := (bind m (fun _ => k))
  (at level 100, right associativity) : go_scope.
Open Scope go_scope.

(* ===================================================================== *)
(** ** The data model *)
(* ===================================================================== *)

(** [ast.File], as far as this file looks into it: the text of the leading
    doc comment ([Doc] is a nil-able [*ast.CommentGroup]) and the top-level
    declarations, which only the collaborators inspect. *)
Record File : Type := mkFile {
  Doc_group : option string;
  Decls : list string
}.

(** The [Text()] method of a comment group, which answers the empty
    string on a nil receiver. *)
Definition CommentGroup_Text (g : option string) : string := default "" g.

(** [ast.Package]: [Files] is a Go map from file name to file. *)
Record Package : Type := mkPackage {
  Name : string;
  Files : gmap string File
}.

(** Modelled from the spec: the [CodeWriter] interface is declared in
    another file of the package.  One value adapts one function descriptor
    and yields three text fragments: the forward declaration [FuncDec()],
    the wrapper implementation that [Code(buf)] appends to the buffer, and
    the registration statement that [SQL(name, file)] writes to the file. *)
Record CodeWriter : Type := mkCodeWriter {
  FuncDec : string;
  Code : string;
  SQL : string → string
}.

(** [ModuleWriter]; the [fset] field only carries source positions for the
    printer and is left out. *)
Record ModuleWriter : Type := mkModuleWriter {
  PackageName : string;
  Doc : string;
  packageAst : Package;
  functions : list CodeWriter
}.

(** One [require] line of a parsed [go.mod]: [req.Mod.Path] and
    [req.Mod.Version]. *)
Record Require : Type := mkRequire {
  Mod_Path : string;
  Mod_Version : string
}.


(** Everything [modulewriter.go] calls and does not define.

    A failed [ioutil.WriteFile] need not leave the target as it was: the
    call opens the file truncating it and then writes.
    [ioutil_WriteFile_wrote path data] says how a failing call stopped:
    [None] when the file could not be opened, [Some n] when [n] bytes of
    [data] were in the truncated file.  A write to an open file may fall
    short too: [File_WriteString_wrote w path text] is [None] when the
    whole of [text] is written in the world [w], and [Some n] when the
    write stops with an error after [n] bytes.  A [format.Node] that fails
    may have printed a part of the tree already: [format_Node_wrote node]
    is the text that reached the file before the error.

    The last five fields stand for code of package [main] that lives in
    other files.  [FuncVisitor_Walk ast visit] stands for
    [ast.Walk(funcVisitor, packageAst)] followed by reading
    [funcVisitor.functions] and [funcVisitor.err]: [ast.Walk] hands the
    visitor the package and then the files of its [Files] map in the order
    [visit] in which its [range] loop meets them.  [Remover_Walk] stands
    for the in-place rewrite [ast.Walk(new(Remover), packageAst)]: a
    fresh [Remover] rewrites each file it is handed, and the tree it leaves
    is taken not to depend on the order in which it is handed them.
    [addOtherIncludesAndLDFLAGS] stands for the update it makes through its
    pointer argument. *)
Record Env : Type := mkEnv {
  (* package os *)
  environ : gmap string string;
  os_Stat_ok : string → bool;
  ioutil_ReadFile : string → result string;
  os_Create_err : string → option error;
  File_Close_err : string → option error;
  ioutil_WriteFile_err : string → option error;
  ioutil_WriteFile_wrote : string → string → option nat;
  File_WriteString_wrote : World → string → string → option nat;
  exec_CombinedOutput : string → list string → result string;
  (* package path/filepath *)
  filepath_Join : list string → string;
  filepath_SplitList : string → list string;
  filepath_Abs : string → result string;
  filepath_Base : string → string;
  (* packages go/parser, go/ast, go/format, go/build, x/mod/modfile *)
  parser_ParseDir : string → (string → bool) → gmap string Package * option error;
  ast_MergePackageFiles : Package → File;
  format_Node : File → result string;
  format_Node_wrote : File → string;
  format_Source : string → result string;
  build_Default_GOPATH : string;
  modfile_Parse : string → string → result (list Require);
  (* the other files of package main *)
  FuncVisitor_Walk : Package → list (string * File) → list CodeWriter * option error;
  Remover_Walk : Package → Package;
  buildPath : M string;
  getcorrectpath : string → string;
  addOtherIncludesAndLDFLAGS : string → string → string
}.

(** The order in which one [range] statement visits a Go map is chosen by
    the run time, anew at every loop; any enumeration of the entries is a
    legal choice. *)
Definition range_order := gmap string File → list (string * File).

Definition legal_range (pick : range_order) : Prop :=
  ∀ m, pick m ≡ₚ map_to_list m.

(* ===================================================================== *)
(** ** The code *)
(* ===================================================================== *)

Section Code.
Variable env : Env.

(** *** Primitive effects *)

Definition os_Getenv (key : string) : string := default "" (environ env !! key).

Definition os_LookupEnv (key : string) : option string := environ env !! key.

(** [os.Create(path)]: the file exists and is empty afterwards. *)
Definition os_Create (path : string) : M unit := fun w =>
  let w := log (EvCreate path) w in
  match os_Create_err env path with
  | Some e => (Err e, w)
  | None => (Ok tt, put_file path "" w)
  end.

(** [file.WriteString(text)] with the error dropped, as the callers do:
    a write that falls short leaves what it wrote and still answers nil. *)
Definition File_WriteString (path text : string) : M unit := fun w =>
  let written :=
    match File_WriteString_wrote env w path text with
    | Some n => Str.take n text
    | None => text
    end in
  (Ok tt, append_file path written (log (EvWriteString path text) w)).

Definition File_Close (path : string) : M unit := fun w =>
  let w := log (EvClose path) w in
  match File_Close_err env path with
  | Some e => (Err e, w)
  | None => (Ok tt, w)
  end.

(** [format.Node(file, fset, node)] printing into the open file; a
    failing call leaves in the file what it printed before the error. *)
Definition format_Node_to (path : string) (node : File) : M unit := fun w =>
  let w := log (EvFormatNode path) w in
  match format_Node env node with
  | Ok text => (Ok tt, append_file path text w)
  | Err e => (Err e, append_file path (format_Node_wrote env node) w)
  | Panic p => (Panic p, w)
  end.

(** [ioutil.WriteFile(path, data, 0644)]: a failing call leaves the
    target untouched when it could not be opened, and truncated to the
    bytes written so far otherwise. *)
Definition ioutil_WriteFile (path data : string) : M unit := fun w =>
  let w := log (EvWriteFile path data) w in
  match ioutil_WriteFile_err env path with
  | Some e =>
      (Err e, match ioutil_WriteFile_wrote env path data with
              | Some n => put_file path (Str.take n data) w
              | None => w
              end)
  | None => (Ok tt, put_file path data w)
  end.

(** [exec.Command(cmd, args...).CombinedOutput()]. *)
Definition exec_Command (cmd : string) (args : list string) : M string := fun w =>
  (exec_CombinedOutput env cmd args, log (EvExec cmd args) w).

(** *** NewModuleWriter *)

(** The closure handed to [parser.ParseDir]: skip [_test] files. *)
Definition filtertestfiles (name : string) : bool :=
  if Str.HasSuffix name "_test.go" then false else true.

(** What one round of the loop over [packageAst.Files] adds to
    [packageDoc]. *)
Definition doc_line (entry : string * File) : string :=
  CommentGroup_Text (Doc_group entry.2) +:+ Str.LF.

(** The loop over [packageAst.Files] that builds [packageDoc]. *)
Fixpoint collect_doc (visit : list (string * File)) (packageDoc : string) : string :=
  match visit with
  | [] => packageDoc
  | (_, packageFile) :: rest =>
      collect_doc rest (packageDoc +:+ CommentGroup_Text (Doc_group packageFile) +:+ Str.LF)
  end.

(** [NewModuleWriter(packagePath)], on a run in which the [range] loop
    that builds [packageDoc] visits the files in the order [pick] gives and
    the [range] loop inside [ast.Walk] visits them in the order [walk]
    gives. *)
Definition NewModuleWriter_run (pick walk : range_order) (packagePath : string)
  : M ModuleWriter :=
  let '(f, err) := parser_ParseDir env packagePath filtertestfiles in
  match err with
  | Some e => fail (Wrapf "Cannot parse package: " e)
  | None =>
      if decide (1 < size f) then
        fail (Errorf ("More than one package in " +:+ packagePath))
      else
        match f !! "main" with
        | None => fail (Errorf ("No package main in " +:+ packagePath))
        | Some packageAst =>
            let packageDoc := collect_doc (pick (Files packageAst)) "" in
            let '(funcs, verr) :=
              FuncVisitor_Walk env packageAst (walk (Files packageAst)) in
            match verr with
            | Some e => fail e
            | None =>
                absPackagePath <- lift (filepath_Abs env packagePath) ;;
                let packageName := filepath_Base env absPackagePath in
                ret {| PackageName := packageName; Doc := packageDoc;
                       packageAst := packageAst; functions := funcs |}
            end
        end
  end.


(** [NewModuleWriter] as a relation: some legal iteration orders of its
    two loops lead from the world [w] to the outcome [r]. *)
Definition NewModuleWriter (packagePath : string) (w : World)
    (r : result ModuleWriter * World) : Prop :=
  ∃ pick walk, legal_range pick ∧ legal_range walk
               ∧ NewModuleWriter_run pick walk packagePath w = r.

(** *** writeUserPackage *)

(** The receiver after [ast.Walk(new(Remover), mw.packageAst)] has
    rewritten its tree in place. *)
Definition sanitized (mw : ModuleWriter) : ModuleWriter :=
  {| PackageName := PackageName mw; Doc := Doc mw;
     packageAst := Remover_Walk env (packageAst mw); functions := functions mw |}.

(** Returns the receiver as the call leaves it. *)
Definition writeUserPackage (mw : ModuleWriter) (tempPackagePath : string)
  : M ModuleWriter :=
  let mw := sanitized mw in
  let packageFile := filepath_Join env [tempPackagePath; "package.go"] in
  wrap "Cannot write file tempdir: " (os_Create packageFile) ;;;
  wrap "Cannot format package "
    (format_Node_to packageFile (ast_MergePackageFiles env (packageAst mw))) ;;;
  wrap "Cannot write file tempdir: " (File_Close packageFile) ;;;
  ret mw.

(** *** versionInfo and readPlGoSource *)

(** The loop over [moddata.Require]. *)
Fixpoint find_version (reqs : list Require) (mod_ : string) : option string :=
  match reqs with
  | [] => None
  | req :: rest =>
      if decide (Mod_Path req = mod_) then Some (Mod_Version req)
      else find_version rest mod_
  end.

Definition versionInfo (mod_ : string) : result string :=
  match ioutil_ReadFile env "go.mod" with
  | Err e =>
      if os_IsNotExist e
      then Err (Errorf "go.mod is missing. Please run go mod init")
      else Err e
  | Panic p => Panic p
  | Ok gomod =>
      match modfile_Parse env "go.mod" gomod with
      | Err e => Err e
      | Panic p => Panic p
      | Ok reqs =>
          match find_version reqs mod_ with
          | Some version => Ok version
          | None => Err (Errorf ("Cannot find " +:+ mod_ +:+ " in go.mod"))
          end
      end
  end.

(** A search loop of [readPlGoSource]: the first candidate that [os.Stat]
    accepts, or the empty string. *)
Fixpoint first_found (candidates : list string) : string :=
  match candidates with
  | [] => ""
  | path :: rest => if os_Stat_ok env path then path else first_found rest
  end.

Definition not_installed : error :=
  Errorf ("Package github.com/algonode/plgo not installed" +:+ Str.LF +:+
          "please install it with: go get -u github.com/algonode/plgo/plgo").

(** The tail of [readPlGoSource], from [if found != ""] on. *)
Definition read_found (found : string) : result string :=
  if decide (found = "") then Err not_installed
  else match ioutil_ReadFile env found with
       | Ok rv => Ok rv
       | Err e => Err (Wrapf "Cannot read plgo package: " e)
       | Panic p => Panic p
       end.

Definition readPlGoSource : result string :=
  let goPath := os_Getenv "GOPATH" in
  let goPath := if decide (goPath = "") then build_Default_GOPATH env else goPath in
  let found :=
    first_found
      (map (fun goPathElement =>
              filepath_Join env [goPathElement; "src"; "github.com"; "algonode"; "plgo"; "pl.go"])
           (filepath_SplitList env goPath)) in
  if decide (found = "") then
    match versionInfo "github.com/algonode/plgo" with
    | Err e => Err e
    | Panic p => Panic p
    | Ok version =>
        let pathEnd :=
          filepath_Join env ["pkg"; "mod"; "github.com"; "algonode"; "plgo@" +:+ version; "pl.go"] in
        let found :=
          match os_LookupEnv "GOMODCACHE" with
          | Some cache =>
              let path := filepath_Join env [cache; pathEnd] in
              if os_Stat_ok env path then path else found
          | None => found
          end in
        let found :=
          if decide (found = "") then
            first_found
              (map (fun goPathElement => filepath_Join env [goPathElement; pathEnd])
                   (filepath_SplitList env goPath))
          else found in
        read_found found
    end
  else read_found found.

(** *** writeplgo *)

Definition funcdec_marker : string := "//{funcdec}".

(** The text of [pl.go] as [writeplgo] builds it from the template that
    remains after the package clause, the include directory reported by
    [pg_config], and the function list. *)
Definition prepare_template (rest postgresIncludeDir : string) : string :=
  let plgoSource := "package main" +:+ Str.LF +:+ Str.LF +:+ rest in
  let postgresIncludeStr := getcorrectpath env postgresIncludeDir in
  let plgoSource :=
    Str.Replace1 plgoSource "/usr/include/postgresql/server" postgresIncludeStr in
  addOtherIncludesAndLDFLAGS env plgoSource postgresIncludeStr.

Definition declarations (fs : list CodeWriter) : string :=
  Str.concat (map FuncDec fs).

Definition splice_declarations (plgoSource : string) (fs : list CodeWriter) : string :=
  Str.Replace1 plgoSource funcdec_marker (declarations fs).

Definition writeplgo (mw : ModuleWriter) (tempPackagePath : string) : M unit :=
  plgoSource <- lift readPlGoSource ;;
  match Str.slice_from plgoSource 12 with
  | None => lift (Panic "slice bounds out of range")
  | Some rest =>
      postgresIncludeDir <-
        wrap "Cannot run pg_config: " (exec_Command "pg_config" ["--includedir-server"]) ;;
      let plgoSource := prepare_template rest postgresIncludeDir in
      let plgoSource := splice_declarations plgoSource (functions mw) in
      wrap "Cannot write file tempdir: "
        (ioutil_WriteFile (filepath_Join env [tempPackagePath; "pl.go"]) plgoSource)
  end.

(** *** writeExportedMethods *)

Definition methods_header : string :=
  "package main" +:+ Str.LF +:+
  Str.LF +:+
  "/*" +:+ Str.LF +:+
  "#include " +:+ Str.DQUOTE +:+ "postgres.h" +:+ Str.DQUOTE +:+ Str.LF +:+
  "#include " +:+ Str.DQUOTE +:+ "utils/elog.h" +:+ Str.DQUOTE +:+ Str.LF +:+
  "#include " +:+ Str.DQUOTE +:+ "fmgr.h" +:+ Str.DQUOTE +:+ Str.LF +:+
  "extern void elog_error(char* string);" +:+ Str.LF +:+
  "*/" +:+ Str.LF +:+
  "import " +:+ Str.DQUOTE +:+ "C" +:+ Str.DQUOTE +:+ Str.LF.

(** The buffer after the header and the loop of [f.Code(buf)]. *)
Definition methods_buffer (fs : list CodeWriter) : string :=
  methods_header +:+ Str.concat (map Code fs).

Definition writeExportedMethods (mw : ModuleWriter) (tempPackagePath : string) : M unit :=
  let buf := methods_buffer (functions mw) in
  code <- lift (format_Source env buf) ;;
  wrap "Cannot write file tempdir: "
    (ioutil_WriteFile (filepath_Join env [tempPackagePath; "methods.go"]) code).

(** *** WriteModule *)

Definition WriteModule (mw : ModuleWriter) : M string :=
  tempPackagePath <- wrap "Cannot get tempdir: " (buildPath env) ;;
  mw <- writeUserPackage mw tempPackagePath ;;
  writeplgo mw tempPackagePath ;;;
  writeExportedMethods mw tempPackagePath ;;;
  ret tempPackagePath.

(** *** WriteSQL, WriteControl, WriteMakefile *)

Definition sql_header (name : string) : string :=
  "-- complain if script is sourced in psql, rather than via CREATE EXTENSION" +:+ Str.LF +:+
  "\echo Use " +:+ Str.DQUOTE +:+ "CREATE EXTENSION " +:+ name +:+ Str.DQUOTE +:+
  " to load this file. \quit" +:+ Str.LF.

(** The loop of [f.SQL(mw.PackageName, sqlFile)]. *)
Fixpoint write_statements (sqlPath name : string) (fs : list CodeWriter) : M unit :=
  match fs with
  | [] => ret tt
  | f :: rest =>
      File_WriteString sqlPath (SQL f name) ;;;
      write_statements sqlPath name rest
  end.

(** A deferred call whose error nobody reads. *)
Definition deferred {A} (m : M A) : M unit := fun w =>
  match m w with
  | (Panic p, w') => (Panic p, w')
  | (_, w') => (Ok tt, w')
  end.

Definition WriteSQL (mw : ModuleWriter) (tempPackagePath : string) : M unit :=
  let sqlPath := filepath_Join env [tempPackagePath; PackageName mw +:+ "--0.1.sql"] in
  os_Create sqlPath ;;;
  File_WriteString sqlPath (sql_header (PackageName mw)) ;;;
  write_statements sqlPath (PackageName mw) (functions mw) ;;;
  deferred (File_Close sqlPath).

Definition control_text (name : string) : string :=
  "# " +:+ name +:+ " extension" +:+ Str.LF +:+
  "comment = '" +:+ name +:+ " extension'" +:+ Str.LF +:+
  "default_version = '0.1'" +:+ Str.LF +:+
  "relocatable = true".

Definition WriteControl (mw : ModuleWriter) (path : string) : M unit :=
  let control := control_text (PackageName mw) in
  let controlPath := filepath_Join env [path; PackageName mw +:+ ".control"] in
  ioutil_WriteFile controlPath control.

Definition makefile_text (name : string) : string :=
  "EXTENSION = " +:+ name +:+ Str.LF +:+
  "DATA = " +:+ name +:+ "--0.1.sql  # script files to install" +:+ Str.LF +:+
  "# REGRESS = " +:+ name +:+ "_test     # our test script file (without extension)" +:+ Str.LF +:+
  "MODULES = " +:+ name +:+ "          # our c module file to build" +:+ Str.LF +:+
  "override with_llvm = no" +:+ Str.LF +:+
  Str.LF +:+
  "# postgres build stuff" +:+ Str.LF +:+
  "PG_CONFIG = pg_config" +:+ Str.LF +:+
  "PGXS := $(shell $(PG_CONFIG) --pgxs)" +:+ Str.LF +:+
  "include $(PGXS)".

Definition WriteMakefile (mw : ModuleWriter) (path : string) : M unit :=
  let makefile := makefile_text (PackageName mw) in
  let makePath := filepath_Join env [path; "Makefile"] in
  ioutil_WriteFile makePath makefile.

(** *** Names for the places and moments the statements below speak of *)

Definition pg_config_ok (inc : string) : Prop :=
  exec_CombinedOutput env "pg_config" ["--includedir-server"] = Ok inc.

Definition package_path (tmp : string) : string := filepath_Join env [tmp; "package.go"].
Definition glue_path (tmp : string) : string := filepath_Join env [tmp; "pl.go"].
Definition methods_path (tmp : string) : string := filepath_Join env [tmp; "methods.go"].
Definition sql_path (mw : ModuleWriter) (tmp : string) : string :=
  filepath_Join env [tmp; PackageName mw +:+ "--0.1.sql"].
Definition control_path (mw : ModuleWriter) (path : string) : string :=
  filepath_Join env [path; PackageName mw +:+ ".control"].
Definition makefile_path (path : string) : string := filepath_Join env [path; "Makefile"].

Definition pg_config_run : event := EvExec "pg_config" ["--includedir-server"].

(** The world after a run of [writeplgo] that got as far as the write. *)
Definition glue_attempted (tmp text : string) (w : World) : World :=
  log (EvWriteFile (glue_path tmp) text) (log pg_config_run w).

(** Every write to the open file [path] goes through in full. *)
Definition writes_complete (path : string) : Prop :=
  ∀ w text, File_WriteString_wrote env w path text = None.

(** The registration statements, in the order of the function list. *)
Definition statements (name : string) (fs : list CodeWriter) : list string :=
  map (fun f => SQL f name) fs.
End Code.

(* ===================================================================== *)
(** ** A concrete environment *)
(* ===================================================================== *)

(** A Unix-like machine with the template under [GOPATH], on which every
    file operation succeeds.  It is what the closed examples run on; the
    theorems below hold for every [Env]. *)
Module Sample.

(** [filepath.Join] on elements that need no cleaning. *)
Fixpoint Join (elem : list string) : string :=
  match elem with
  | [] => ""
  | [e] => e
  | e :: rest => e +:+ "/" +:+ Join rest
  end.

(** [filepath.Base] on a path without trailing separators: the text
    after the last slash. *)
Fixpoint Base_from (acc path : string) : string :=
  match path with
  | EmptyString => acc
  | String c rest =>
      if Ascii.eqb c "/" then Base_from "" rest
      else Base_from (acc +:+ String c "") rest
  end.

Definition Base (path : string) : string := Base_from "" path.

Definition template_path : string := "/go/src/github.com/algonode/plgo/pl.go".

Definition include_dir : string := "/usr/include/postgresql/14/server".

Definition env (template : result string) (gomod : result string)
    (reqs : list Require) (pkgs : gmap string Package) (funcs : list CodeWriter) : Env :=
  {| environ := {[ "GOPATH" := "/go" ]};
     os_Stat_ok := fun p => bool_decide (p = template_path);
     ioutil_ReadFile := fun p =>
       if decide (p = template_path) then template
       else if decide (p = "go.mod") then gomod
       else Err (SysErr true ("open " +:+ p +:+ ": no such file or directory"));
     os_Create_err := fun _ => None;
     File_Close_err := fun _ => None;
     ioutil_WriteFile_err := fun _ => None;
     ioutil_WriteFile_wrote := fun _ _ => None;
     File_WriteString_wrote := fun _ _ _ => None;
     exec_CombinedOutput := fun _ _ => Ok include_dir;
     filepath_Join := Join;
     filepath_SplitList := fun s => if decide (s = "") then [] else [s];
     filepath_Abs := fun p => Ok p;
     filepath_Base := Base;
     parser_ParseDir := fun _ _ => (pkgs, None);
     ast_MergePackageFiles := fun pkg =>
       {| Doc_group := None; Decls := map_to_list (Files pkg) ≫= (Decls ∘ snd) |};
     format_Node := fun f => Ok (Str.concat (Decls f));
     format_Node_wrote := fun _ => "";
     format_Source := fun src => Ok src;
     build_Default_GOPATH := "/root/go";
     modfile_Parse := fun _ _ => Ok reqs;
     FuncVisitor_Walk := fun _ _ => (funcs, None);
     Remover_Walk := fun pkg => pkg;
     buildPath := ret "/tmp/plgo";
     getcorrectpath := fun p => p;
     addOtherIncludesAndLDFLAGS := fun src _ => src |}.

Definition w0 : World := {| files := ∅; trace := [] |}.

(** A template that keeps its contract, and one without the marker. *)
Definition good_template : string :=
  "package plgo" +:+ Str.LF +:+ "//{funcdec}" +:+ Str.LF +:+ "func init() {}" +:+ Str.LF.

Definition bare_template : string :=
  "package plgo" +:+ Str.LF +:+ "func init() {}" +:+ Str.LF.

Definition add : CodeWriter :=
  {| FuncDec := "func add(*C.FunctionCallInfoData) C.Datum;";
     Code := "func add() {}";
     SQL := fun name => "CREATE FUNCTION add() AS '$libdir/" +:+ name +:+ "';" |}.

Definition greet : CodeWriter :=
  {| FuncDec := "func greet(*C.FunctionCallInfoData) C.Datum;";
     Code := "func greet() {}";
     SQL := fun name => "CREATE FUNCTION greet() AS '$libdir/" +:+ name +:+ "';" |}.

Definition file_a : File := {| Doc_group := Some "Package main adds."; Decls := ["func Add()"] |}.
Definition file_b : File := {| Doc_group := Some "Greeting helpers."; Decls := ["func Greet()"] |}.

Definition main_pkg : Package :=
  {| Name := "main"; Files := {[ "a.go" := file_a; "b.go" := file_b ]} |}.

Definition other_pkg : Package :=
  {| Name := "util"; Files := {[ "u.go" := file_b ]} |}.

Definition demo : ModuleWriter :=
  {| PackageName := "demo"; Doc := ""; packageAst := main_pkg; functions := [add; greet] |}.

Definition no_gomod : result string :=
  Err (SysErr true "open go.mod: no such file or directory").

(** The machine with the contract-keeping template, with the template
    that lacks the marker, and with a template of five bytes. *)
Definition good_env : Env := env (Ok good_template) no_gomod [] {[ "main" := main_pkg ]} [add; greet].
Definition bare_env : Env := env (Ok bare_template) no_gomod [] {[ "main" := main_pkg ]} [add; greet].
Definition short_env : Env := env (Ok "short") no_gomod [] {[ "main" := main_pkg ]} [add; greet].


(** The same machine with another [format.Source]. *)
Definition with_format_Source (fmt : string → result string) (e : Env) : Env :=
  {| environ := environ e; os_Stat_ok := os_Stat_ok e; ioutil_ReadFile := ioutil_ReadFile e;
     os_Create_err := os_Create_err e; File_Close_err := File_Close_err e;
     ioutil_WriteFile_err := ioutil_WriteFile_err e;
     ioutil_WriteFile_wrote := ioutil_WriteFile_wrote e;
     File_WriteString_wrote := File_WriteString_wrote e;
     exec_CombinedOutput := exec_CombinedOutput e; filepath_Join := filepath_Join e;
     filepath_SplitList := filepath_SplitList e; filepath_Abs := filepath_Abs e;
     filepath_Base := filepath_Base e; parser_ParseDir := parser_ParseDir e;
     ast_MergePackageFiles := ast_MergePackageFiles e; format_Node := format_Node e;
     format_Node_wrote := format_Node_wrote e; format_Source := fmt;
     build_Default_GOPATH := build_Default_GOPATH e; modfile_Parse := modfile_Parse e;
     FuncVisitor_Walk := FuncVisitor_Walk e; Remover_Walk := Remover_Walk e;
     buildPath := buildPath e; getcorrectpath := getcorrectpath e;
     addOtherIncludesAndLDFLAGS := addOtherIncludesAndLDFLAGS e |}.

Definition syntax_error : error := SysErr false "1:1: expected declaration".

(** A directory with two package identifiers, and one whose only
    package is not [main]. *)
Definition two_packages_env : Env :=
  env (Ok good_template) no_gomod [] {[ "main" := main_pkg; "util" := other_pkg ]} [add; greet].
Definition util_env : Env :=
  env (Ok good_template) no_gomod [] {[ "util" := other_pkg ]} [add; greet].

(** A project whose [go.mod] pins two dependencies. *)
Definition pinned : list Require :=
  [ {| Mod_Path := "github.com/lib/pq"; Mod_Version := "v1.10.9" |};
    {| Mod_Path := "github.com/algonode/plgo"; Mod_Version := "v0.1.2" |} ].
Definition gomod_env : Env :=
  env (Ok good_template) (Ok "module demo") pinned {[ "main" := main_pkg ]} [add; greet].

(** A machine on which the generated wrappers do not format. *)
Definition unformattable_env : Env :=
  with_format_Source (fun _ => Err syntax_error) good_env.

End Sample.

(* ===================================================================== *)
(** ** ToUnexported *)
(* ===================================================================== *)

(** Bytes and sub-strings, as [ToUnexported] and package [strings] use
    them. *)
Module Bytes.

(** The slice expression [s[lo:hi]]: Go faults unless
    [lo <= hi <= len(s)]. *)
Definition slice (s : string) (lo hi : nat) : option string :=
  if decide (lo ≤ hi ∧ hi ≤ String.length s)
  then Some (Str.take (hi - lo) (Str.drop lo s))
  else None.

(** ['A' <= c && c <= 'Z']. *)
Definition is_upper (c : ascii) : bool :=
  (65 <=? nat_of_ascii c) && (nat_of_ascii c <=? 90).

(** [c += 'a' - 'A'] on an upper-case letter, other bytes as they are. *)
Definition to_lower (c : ascii) : ascii :=
  if is_upper c then ascii_of_nat (nat_of_ascii c + 32) else c.

(** [c < utf8.RuneSelf]. *)
Definition is_ascii (c : ascii) : bool := nat_of_ascii c <? 128.

Fixpoint isASCII (s : string) : bool :=
  match s with
  | EmptyString => true
  | String c s' => is_ascii c && isASCII s'
  end.

Fixpoint map_bytes (f : ascii → ascii) (s : string) : string :=
  match s with
  | EmptyString => EmptyString
  | String c s' => String (f c) (map_bytes f s')
  end.

(** The byte [ch] does not occur in [s]. *)
Fixpoint lacks (ch : ascii) (s : string) : bool :=
  match s with
  | EmptyString => true
  | String c s' => negb (Ascii.eqb c ch) && lacks ch s'
  end.

End Bytes.

Section Naming.
(** [strings.Map(unicode.ToLower, s)], the path [strings.ToLower] takes on
    a string with a byte outside ASCII. *)
Variable unicode_ToLower : string → string.

(** [strings.ToLower(s)]: an ASCII-only string is lowered byte by byte. *)
Definition strings_ToLower (s : string) : string :=
  if Bytes.isASCII s then Bytes.map_bytes Bytes.to_lower s else unicode_ToLower s.

(** [ToUnexported(name)]: both slice expressions fault on the empty
    string. *)
Definition ToUnexported (name : string) : result string :=
  match Bytes.slice name 0 1, Str.slice_from name 1 with
  | Some first, Some rest => Ok (strings_ToLower first +:+ rest)
  | _, _ => Panic "slice bounds out of range"
  end.
End Naming.

(** Whether a Go identifier is exported, for an identifier that starts
    with an ASCII byte: its first byte is an upper-case letter. *)
Definition exported (name : string) : bool :=
  match name with
  | EmptyString => false
  | String c _ => Bytes.is_upper c
  end.

(* ===================================================================== *)
(** ** Names for the search of readPlGoSource *)
(* ===================================================================== *)

Section Search.
Variable env : Env.

(** [goPath] after the fallback to [build.Default.GOPATH]. *)
Definition goPath : string :=
  if decide (os_Getenv env "GOPATH" = "") then build_Default_GOPATH env
  else os_Getenv env "GOPATH".

(** The candidates of the first loop. *)
Definition src_candidates : list string :=
  map (fun goPathElement =>
         filepath_Join env [goPathElement; "src"; "github.com"; "algonode"; "plgo"; "pl.go"])
      (filepath_SplitList env goPath).

Definition pathEnd (version : string) : string :=
  filepath_Join env ["pkg"; "mod"; "github.com"; "algonode"; "plgo@" +:+ version; "pl.go"].

(** The candidates of the second loop. *)
Definition mod_candidates (version : string) : list string :=
  map (fun goPathElement => filepath_Join env [goPathElement; pathEnd version])
      (filepath_SplitList env goPath).

(** Every path [readPlGoSource] may read the template from. *)
Definition template_candidates (version : string) (cache : option string) : list string :=
  src_candidates
  ++ match cache with
     | Some c => [filepath_Join env [c; pathEnd version]]
     | None => []
     end
  ++ mod_candidates version.
End Search.

(** The package clause [writeplgo] puts in front of the template. *)
Definition package_clause : string := "package main" +:+ Str.LF +:+ Str.LF.

(** The module path the manifest is asked about. *)
Definition plgo_module : string := "github.com/algonode/plgo".

(** What [readPlGoSource] answers once it has settled on the file [p]. *)
Definition read_template (env : Env) (p : string) : result string :=
  match ioutil_ReadFile env p with
  | Ok rv => Ok rv
  | Err e => Err (Wrapf "Cannot read plgo package: " e)
  | Panic q => Panic q
  end.


(** The registration script [WriteSQL] leaves. *)
Definition sql_script (mw : ModuleWriter) : string :=
  sql_header (PackageName mw) +:+ Str.concat (statements (PackageName mw) (functions mw)).

(** The text [writeUserPackage] prints: the merged files of the tree the
    [Remover] left. *)
Definition printed (env : Env) (mw : ModuleWriter) : result string :=
  format_Node env (ast_MergePackageFiles env (Remover_Walk env (packageAst mw))).

(* ===================================================================== *)
(** ** More machines *)
(* ===================================================================== *)

(** Variations of the machine of [Sample], one field at a time. *)
Module Cases.

Definition with_environ (x : gmap string string) (e : Env) : Env :=
  {| environ := x; os_Stat_ok := os_Stat_ok e; ioutil_ReadFile := ioutil_ReadFile e;
     os_Create_err := os_Create_err e; File_Close_err := File_Close_err e;
     ioutil_WriteFile_err := ioutil_WriteFile_err e;
     ioutil_WriteFile_wrote := ioutil_WriteFile_wrote e;
     File_WriteString_wrote := File_WriteString_wrote e;
     exec_CombinedOutput := exec_CombinedOutput e; filepath_Join := filepath_Join e;
     filepath_SplitList := filepath_SplitList e; filepath_Abs := filepath_Abs e;
     filepath_Base := filepath_Base e; parser_ParseDir := parser_ParseDir e;
     ast_MergePackageFiles := ast_MergePackageFiles e; format_Node := format_Node e;
     format_Node_wrote := format_Node_wrote e; format_Source := format_Source e;
     build_Default_GOPATH := build_Default_GOPATH e; modfile_Parse := modfile_Parse e;
     FuncVisitor_Walk := FuncVisitor_Walk e; Remover_Walk := Remover_Walk e;
     buildPath := buildPath e; getcorrectpath := getcorrectpath e;
     addOtherIncludesAndLDFLAGS := addOtherIncludesAndLDFLAGS e |}.

Definition with_os_Stat_ok (x : string → bool) (e : Env) : Env :=
  {| environ := environ e; os_Stat_ok := x; ioutil_ReadFile := ioutil_ReadFile e;
     os_Create_err := os_Create_err e; File_Close_err := File_Close_err e;
     ioutil_WriteFile_err := ioutil_WriteFile_err e;
     ioutil_WriteFile_wrote := ioutil_WriteFile_wrote e;
     File_WriteString_wrote := File_WriteString_wrote e;
     exec_CombinedOutput := exec_CombinedOutput e; filepath_Join := filepath_Join e;
     filepath_SplitList := filepath_SplitList e; filepath_Abs := filepath_Abs e;
     filepath_Base := filepath_Base e; parser_ParseDir := parser_ParseDir e;
     ast_MergePackageFiles := ast_MergePackageFiles e; format_Node := format_Node e;
     format_Node_wrote := format_Node_wrote e; format_Source := format_Source e;
     build_Default_GOPATH := build_Default_GOPATH e; modfile_Parse := modfile_Parse e;
     FuncVisitor_Walk := FuncVisitor_Walk e; Remover_Walk := Remover_Walk e;
     buildPath := buildPath e; getcorrectpath := getcorrectpath e;
     addOtherIncludesAndLDFLAGS := addOtherIncludesAndLDFLAGS e |}.

Definition with_ioutil_ReadFile (x : string → result string) (e : Env) : Env :=
  {| environ := environ e; os_Stat_ok := os_Stat_ok e; ioutil_ReadFile := x;
     os_Create_err := os_Create_err e; File_Close_err := File_Close_err e;
     ioutil_WriteFile_err := ioutil_WriteFile_err e;
     ioutil_WriteFile_wrote := ioutil_WriteFile_wrote e;
     File_WriteString_wrote := File_WriteString_wrote e;
     exec_CombinedOutput := exec_CombinedOutput e; filepath_Join := filepath_Join e;
     filepath_SplitList := filepath_SplitList e; filepath_Abs := filepath_Abs e;
     filepath_Base := filepath_Base e; parser_ParseDir := parser_ParseDir e;
     ast_MergePackageFiles := ast_MergePackageFiles e; format_Node := format_Node e;
     format_Node_wrote := format_Node_wrote e; format_Source := format_Source e;
     build_Default_GOPATH := build_Default_GOPATH e; modfile_Parse := modfile_Parse e;
     FuncVisitor_Walk := FuncVisitor_Walk e; Remover_Walk := Remover_Walk e;
     buildPath := buildPath e; getcorrectpath := getcorrectpath e;
     addOtherIncludesAndLDFLAGS := addOtherIncludesAndLDFLAGS e |}.

Definition with_os_Create_err (x : string → option error) (e : Env) : Env :=
  {| environ := environ e; os_Stat_ok := os_Stat_ok e; ioutil_ReadFile := ioutil_ReadFile e;
     os_Create_err := x; File_Close_err := File_Close_err e;
     ioutil_WriteFile_err := ioutil_WriteFile_err e;
     ioutil_WriteFile_wrote := ioutil_WriteFile_wrote e;
     File_WriteString_wrote := File_WriteString_wrote e;
     exec_CombinedOutput := exec_CombinedOutput e; filepath_Join := filepath_Join e;
     filepath_SplitList := filepath_SplitList e; filepath_Abs := filepath_Abs e;
     filepath_Base := filepath_Base e; parser_ParseDir := parser_ParseDir e;
     ast_MergePackageFiles := ast_MergePackageFiles e; format_Node := format_Node e;
     format_Node_wrote := format_Node_wrote e; format_Source := format_Source e;
     build_Default_GOPATH := build_Default_GOPATH e; modfile_Parse := modfile_Parse e;
     FuncVisitor_Walk := FuncVisitor_Walk e; Remover_Walk := Remover_Walk e;
     buildPath := buildPath e; getcorrectpath := getcorrectpath e;
     addOtherIncludesAndLDFLAGS := addOtherIncludesAndLDFLAGS e |}.

Definition with_File_Close_err (x : string → option error) (e : Env) : Env :=
  {| environ := environ e; os_Stat_ok := os_Stat_ok e; ioutil_ReadFile := ioutil_ReadFile e;
     os_Create_err := os_Create_err e; File_Close_err := x;
     ioutil_WriteFile_err := ioutil_WriteFile_err e;
     ioutil_WriteFile_wrote := ioutil_WriteFile_wrote e;
     File_WriteString_wrote := File_WriteString_wrote e;
     exec_CombinedOutput := exec_CombinedOutput e; filepath_Join := filepath_Join e;
     filepath_SplitList := filepath_SplitList e; filepath_Abs := filepath_Abs e;
     filepath_Base := filepath_Base e; parser_ParseDir := parser_ParseDir e;
     ast_MergePackageFiles := ast_MergePackageFiles e; format_Node := format_Node e;
     format_Node_wrote := format_Node_wrote e; format_Source := format_Source e;
     build_Default_GOPATH := build_Default_GOPATH e; modfile_Parse := modfile_Parse e;
     FuncVisitor_Walk := FuncVisitor_Walk e; Remover_Walk := Remover_Walk e;
     buildPath := buildPath e; getcorrectpath := getcorrectpath e;
     addOtherIncludesAndLDFLAGS := addOtherIncludesAndLDFLAGS e |}.

Definition with_ioutil_WriteFile_err (x : string → option error) (e : Env) : Env :=
  {| environ := environ e; os_Stat_ok := os_Stat_ok e; ioutil_ReadFile := ioutil_ReadFile e;
     os_Create_err := os_Create_err e; File_Close_err := File_Close_err e;
     ioutil_WriteFile_err := x; ioutil_WriteFile_wrote := ioutil_WriteFile_wrote e;
     File_WriteString_wrote := File_WriteString_wrote e;
     exec_CombinedOutput := exec_CombinedOutput e; filepath_Join := filepath_Join e;
     filepath_SplitList := filepath_SplitList e; filepath_Abs := filepath_Abs e;
     filepath_Base := filepath_Base e; parser_ParseDir := parser_ParseDir e;
     ast_MergePackageFiles := ast_MergePackageFiles e; format_Node := format_Node e;
     format_Node_wrote := format_Node_wrote e; format_Source := format_Source e;
     build_Default_GOPATH := build_Default_GOPATH e; modfile_Parse := modfile_Parse e;
     FuncVisitor_Walk := FuncVisitor_Walk e; Remover_Walk := Remover_Walk e;
     buildPath := buildPath e; getcorrectpath := getcorrectpath e;
     addOtherIncludesAndLDFLAGS := addOtherIncludesAndLDFLAGS e |}.

Definition with_ioutil_WriteFile_wrote (x : string → string → option nat) (e : Env) : Env :=
  {| environ := environ e; os_Stat_ok := os_Stat_ok e; ioutil_ReadFile := ioutil_ReadFile e;
     os_Create_err := os_Create_err e; File_Close_err := File_Close_err e;
     ioutil_WriteFile_err := ioutil_WriteFile_err e; ioutil_WriteFile_wrote := x;
     File_WriteString_wrote := File_WriteString_wrote e;
     exec_CombinedOutput := exec_CombinedOutput e; filepath_Join := filepath_Join e;
     filepath_SplitList := filepath_SplitList e; filepath_Abs := filepath_Abs e;
     filepath_Base := filepath_Base e; parser_ParseDir := parser_ParseDir e;
     ast_MergePackageFiles := ast_MergePackageFiles e; format_Node := format_Node e;
     format_Node_wrote := format_Node_wrote e; format_Source := format_Source e;
     build_Default_GOPATH := build_Default_GOPATH e; modfile_Parse := modfile_Parse e;
     FuncVisitor_Walk := FuncVisitor_Walk e; Remover_Walk := Remover_Walk e;
     buildPath := buildPath e; getcorrectpath := getcorrectpath e;
     addOtherIncludesAndLDFLAGS := addOtherIncludesAndLDFLAGS e |}.

Definition with_File_WriteString_wrote (x : World → string → string → option nat) (e : Env) : Env :=
  {| environ := environ e; os_Stat_ok := os_Stat_ok e; ioutil_ReadFile := ioutil_ReadFile e;
     os_Create_err := os_Create_err e; File_Close_err := File_Close_err e;
     ioutil_WriteFile_err := ioutil_WriteFile_err e;
     ioutil_WriteFile_wrote := ioutil_WriteFile_wrote e; File_WriteString_wrote := x;
     exec_CombinedOutput := exec_CombinedOutput e; filepath_Join := filepath_Join e;
     filepath_SplitList := filepath_SplitList e; filepath_Abs := filepath_Abs e;
     filepath_Base := filepath_Base e; parser_ParseDir := parser_ParseDir e;
     ast_MergePackageFiles := ast_MergePackageFiles e; format_Node := format_Node e;
     format_Node_wrote := format_Node_wrote e; format_Source := format_Source e;
     build_Default_GOPATH := build_Default_GOPATH e; modfile_Parse := modfile_Parse e;
     FuncVisitor_Walk := FuncVisitor_Walk e; Remover_Walk := Remover_Walk e;
     buildPath := buildPath e; getcorrectpath := getcorrectpath e;
     addOtherIncludesAndLDFLAGS := addOtherIncludesAndLDFLAGS e |}.

Definition with_exec_CombinedOutput (x : string → list string → result string) (e : Env) : Env :=
  {| environ := environ e; os_Stat_ok := os_Stat_ok e; ioutil_ReadFile := ioutil_ReadFile e;
     os_Create_err := os_Create_err e; File_Close_err := File_Close_err e;
     ioutil_WriteFile_err := ioutil_WriteFile_err e;
     ioutil_WriteFile_wrote := ioutil_WriteFile_wrote e;
     File_WriteString_wrote := File_WriteString_wrote e; exec_CombinedOutput := x;
     filepath_Join := filepath_Join e; filepath_SplitList := filepath_SplitList e;
     filepath_Abs := filepath_Abs e; filepath_Base := filepath_Base e;
     parser_ParseDir := parser_ParseDir e; ast_MergePackageFiles := ast_MergePackageFiles e;
     format_Node := format_Node e; format_Node_wrote := format_Node_wrote e;
     format_Source := format_Source e; build_Default_GOPATH := build_Default_GOPATH e;
     modfile_Parse := modfile_Parse e; FuncVisitor_Walk := FuncVisitor_Walk e;
     Remover_Walk := Remover_Walk e; buildPath := buildPath e;
     getcorrectpath := getcorrectpath e;
     addOtherIncludesAndLDFLAGS := addOtherIncludesAndLDFLAGS e |}.

Definition with_filepath_Abs (x : string → result string) (e : Env) : Env :=
  {| environ := environ e; os_Stat_ok := os_Stat_ok e; ioutil_ReadFile := ioutil_ReadFile e;
     os_Create_err := os_Create_err e; File_Close_err := File_Close_err e;
     ioutil_WriteFile_err := ioutil_WriteFile_err e;
     ioutil_WriteFile_wrote := ioutil_WriteFile_wrote e;
     File_WriteString_wrote := File_WriteString_wrote e;
     exec_CombinedOutput := exec_CombinedOutput e; filepath_Join := filepath_Join e;
     filepath_SplitList := filepath_SplitList e; filepath_Abs := x;
     filepath_Base := filepath_Base e; parser_ParseDir := parser_ParseDir e;
     ast_MergePackageFiles := ast_MergePackageFiles e; format_Node := format_Node e;
     format_Node_wrote := format_Node_wrote e; format_Source := format_Source e;
     build_Default_GOPATH := build_Default_GOPATH e; modfile_Parse := modfile_Parse e;
     FuncVisitor_Walk := FuncVisitor_Walk e; Remover_Walk := Remover_Walk e;
     buildPath := buildPath e; getcorrectpath := getcorrectpath e;
     addOtherIncludesAndLDFLAGS := addOtherIncludesAndLDFLAGS e |}.

Definition with_parser_ParseDir (x : string → (string → bool) → gmap string Package * option error) (e : Env) : Env :=
  {| environ := environ e; os_Stat_ok := os_Stat_ok e; ioutil_ReadFile := ioutil_ReadFile e;
     os_Create_err := os_Create_err e; File_Close_err := File_Close_err e;
     ioutil_WriteFile_err := ioutil_WriteFile_err e;
     ioutil_WriteFile_wrote := ioutil_WriteFile_wrote e;
     File_WriteString_wrote := File_WriteString_wrote e;
     exec_CombinedOutput := exec_CombinedOutput e; filepath_Join := filepath_Join e;
     filepath_SplitList := filepath_SplitList e; filepath_Abs := filepath_Abs e;
     filepath_Base := filepath_Base e; parser_ParseDir := x;
     ast_MergePackageFiles := ast_MergePackageFiles e; format_Node := format_Node e;
     format_Node_wrote := format_Node_wrote e; format_Source := format_Source e;
     build_Default_GOPATH := build_Default_GOPATH e; modfile_Parse := modfile_Parse e;
     FuncVisitor_Walk := FuncVisitor_Walk e; Remover_Walk := Remover_Walk e;
     buildPath := buildPath e; getcorrectpath := getcorrectpath e;
     addOtherIncludesAndLDFLAGS := addOtherIncludesAndLDFLAGS e |}.

Definition with_format_Node (x : File → result string) (e : Env) : Env :=
  {| environ := environ e; os_Stat_ok := os_Stat_ok e; ioutil_ReadFile := ioutil_ReadFile e;
     os_Create_err := os_Create_err e; File_Close_err := File_Close_err e;
     ioutil_WriteFile_err := ioutil_WriteFile_err e;
     ioutil_WriteFile_wrote := ioutil_WriteFile_wrote e;
     File_WriteString_wrote := File_WriteString_wrote e;
     exec_CombinedOutput := exec_CombinedOutput e; filepath_Join := filepath_Join e;
     filepath_SplitList := filepath_SplitList e; filepath_Abs := filepath_Abs e;
     filepath_Base := filepath_Base e; parser_ParseDir := parser_ParseDir e;
     ast_MergePackageFiles := ast_MergePackageFiles e; format_Node := x;
     format_Node_wrote := format_Node_wrote e; format_Source := format_Source e;
     build_Default_GOPATH := build_Default_GOPATH e; modfile_Parse := modfile_Parse e;
     FuncVisitor_Walk := FuncVisitor_Walk e; Remover_Walk := Remover_Walk e;
     buildPath := buildPath e; getcorrectpath := getcorrectpath e;
     addOtherIncludesAndLDFLAGS := addOtherIncludesAndLDFLAGS e |}.

Definition with_format_Node_wrote (x : File → string) (e : Env) : Env :=
  {| environ := environ e; os_Stat_ok := os_Stat_ok e; ioutil_ReadFile := ioutil_ReadFile e;
     os_Create_err := os_Create_err e; File_Close_err := File_Close_err e;
     ioutil_WriteFile_err := ioutil_WriteFile_err e;
     ioutil_WriteFile_wrote := ioutil_WriteFile_wrote e;
     File_WriteString_wrote := File_WriteString_wrote e;
     exec_CombinedOutput := exec_CombinedOutput e; filepath_Join := filepath_Join e;
     filepath_SplitList := filepath_SplitList e; filepath_Abs := filepath_Abs e;
     filepath_Base := filepath_Base e; parser_ParseDir := parser_ParseDir e;
     ast_MergePackageFiles := ast_MergePackageFiles e; format_Node := format_Node e;
     format_Node_wrote := x; format_Source := format_Source e;
     build_Default_GOPATH := build_Default_GOPATH e; modfile_Parse := modfile_Parse e;
     FuncVisitor_Walk := FuncVisitor_Walk e; Remover_Walk := Remover_Walk e;
     buildPath := buildPath e; getcorrectpath := getcorrectpath e;
     addOtherIncludesAndLDFLAGS := addOtherIncludesAndLDFLAGS e |}.


(** Nothing lowers a string with a byte outside ASCII here. *)
Definition no_unicode (s : string) : string := s.

(** A directory holding no package, one whose parse failed, and one
    whose only package has the single file [a.go]. *)
Definition empty_env : Env := with_parser_ParseDir (fun _ _ => (∅, None)) Sample.good_env.

Definition parse_error : error := SysErr false "a.go:1:1: expected 'package'".

Definition unparsable_env : Env :=
  with_parser_ParseDir
    (fun _ _ => ({[ "main" := Sample.main_pkg; "util" := Sample.other_pkg ]}, Some parse_error))
    Sample.good_env.

Definition one_file_pkg : Package :=
  {| Name := "main"; Files := {[ "a.go" := Sample.file_a ]} |}.

Definition one_file_env : Env :=
  with_parser_ParseDir (fun _ _ => ({[ "main" := one_file_pkg ]}, None)) Sample.good_env.

(** A machine whose printer rejects the tree, and one on which
    [package.go] cannot be created. *)
Definition unprintable_env : Env :=
  with_format_Node (fun _ => Err Sample.syntax_error)
    (with_format_Node_wrote (fun _ => "package main") Sample.good_env).

Definition permission_denied : error := SysErr false "permission denied".

Definition readonly_env : Env :=
  with_os_Create_err (fun _ => Some permission_denied) Sample.good_env.

(** A machine without any copy of the template; the same with a project
    that pins the package; and one whose module cache holds the template
    while [GOPATH] does not. *)
Definition bare_machine : Env := with_os_Stat_ok (fun _ => false) Sample.good_env.

Definition pinned_machine : Env := with_os_Stat_ok (fun _ => false) Sample.gomod_env.

Definition cached_path : string := "/cache/pkg/mod/github.com/algonode/plgo@v0.1.2/pl.go".

Definition cached_machine : Env :=
  with_environ {[ "GOPATH" := "/go"; "GOMODCACHE" := "/cache" ]}
    (with_os_Stat_ok (fun p => bool_decide (p = cached_path))
       (with_ioutil_ReadFile
          (fun p => if decide (p = cached_path) then Ok Sample.good_template
                    else ioutil_ReadFile Sample.gomod_env p)
          Sample.gomod_env)).



(** A template that begins with a comment of 12 bytes. *)
Definition headless_template : string :=
  "// glue code" +:+ Str.LF +:+ "package plgo" +:+ Str.LF +:+ "//{funcdec}" +:+ Str.LF.

Definition headless_env : Env :=
  with_ioutil_ReadFile
    (fun p => if decide (p = Sample.template_path) then Ok headless_template
              else ioutil_ReadFile Sample.good_env p)
    Sample.good_env.

(** A template with two markers. *)
Definition twice_template : string :=
  "package plgo" +:+ Str.LF +:+ "//{funcdec}" +:+ Str.LF +:+ "//{funcdec}" +:+ Str.LF.

Definition twice_env : Env :=
  with_ioutil_ReadFile
    (fun p => if decide (p = Sample.template_path) then Ok twice_template
              else ioutil_ReadFile Sample.good_env p)
    Sample.good_env.

(** A machine on which no file closes cleanly. *)
Definition unclosable_env : Env :=
  with_File_Close_err (fun _ => Some permission_denied) Sample.good_env.

(** The machine with the 5-byte template on which the wrappers would not
    format either. *)
Definition short_unformattable_env : Env :=
  Sample.with_format_Source (fun _ => Err Sample.syntax_error) Sample.short_env.

(** A project whose [go.mod] exists and cannot be read. *)
Definition unreadable_gomod_env : Env :=
  with_ioutil_ReadFile (fun _ => Err permission_denied) Sample.good_env.

(** A machine whose disk fills up: [ioutil.WriteFile] fails after 7
    bytes, and a write to an open file stops after 3. *)
Definition disk_full : error := SysErr false "no space left on device".

Definition full_disk_env : Env :=
  with_ioutil_WriteFile_err (fun _ => Some disk_full)
    (with_ioutil_WriteFile_wrote (fun _ _ => Some 7)
       (with_File_WriteString_wrote (fun _ _ _ => Some 3) Sample.good_env)).

(** A world in which the build directory already holds files. *)
Definition used_world : World :=
  {| files := {[ "/tmp/plgo/package.go" := "package old";
                 "/tmp/plgo/notes.txt" := "keep me" ]};
     trace := [] |}.
Definition exit_status_1 : error := SysErr false "exit status 1".

End Cases.

(* ===================================================================== *)
(** ** Facts about byte strings *)
(* ===================================================================== *)

Module StrFacts.
Import Str.

Lemma app_cons c (s t : string) : String c s +:+ t = String c (s +:+ t).
Proof. reflexivity. Qed.

Lemma app_empty_l (s : string) : "" +:+ s = s.
Proof. reflexivity. Qed.

Lemma app_empty_r (s : string) : s +:+ "" = s.
Proof. induction s as [|c s IH]; [done|]. by rewrite app_cons, IH. Qed.

Lemma app_assoc (s t u : string) : (s +:+ t) +:+ u = s +:+ t +:+ u.
Proof. induction s as [|c s IH]; [done|]. by rewrite !app_cons, IH. Qed.

Lemma length_app (s t : string) :
  String.length (s +:+ t) = String.length s + String.length t.
Proof. induction s as [|c s IH]; [done|]. rewrite app_cons. simpl. by rewrite IH. Qed.

Lemma take_app (pre rest : string) : take (String.length pre) (pre +:+ rest) = pre.
Proof. induction pre as [|c pre IH]; [done|]. rewrite app_cons. simpl. by rewrite IH. Qed.

Lemma drop_app (pre rest : string) n :
  drop (String.length pre + n) (pre +:+ rest) = drop n rest.
Proof. induction pre as [|c pre IH]; [done|]. by rewrite app_cons. Qed.

Lemma drop_app_exact (pre rest : string) : drop (String.length pre) (pre +:+ rest) = rest.
Proof. rewrite <-(Nat.add_0_r (String.length pre)). by rewrite drop_app. Qed.

Lemma length_take (n : nat) (s : string) :
  n ≤ String.length s → String.length (take n s) = n.
Proof.
  revert s. induction n as [|n IH]; intros [|c s] Hn; simpl in *; try done; [lia|].
  rewrite IH; [done|lia].
Qed.

Lemma take_drop (n : nat) (s : string) : take n s +:+ drop n s = s.
Proof.
  revert s. induction n as [|n IH]; intros [|c s]; try done.
  simpl. by rewrite app_cons, IH.
Qed.

(** [HasPrefix] says what its name says. *)
Lemma HasPrefix_app (p rest : string) : HasPrefix (p +:+ rest) p = true.
Proof.
  unfold HasPrefix. induction p as [|c p IH]; [by destruct rest|].
  rewrite app_cons. simpl. by destruct (ascii_dec c c).
Qed.

Lemma HasPrefix_split (s p : string) :
  HasPrefix s p = true → s = p +:+ drop (String.length p) s.
Proof.
  unfold HasPrefix. revert s. induction p as [|c p IH]; intros s H; [done|].
  destruct s as [|d s]; [done|]. simpl in H.
  destruct (ascii_dec c d) as [->|]; [|done].
  rewrite app_cons. simpl. f_equal. by apply IH.
Qed.

Lemma HasPrefix_iff (s p : string) :
  HasPrefix s p = true ↔ ∃ rest, s = p +:+ rest.
Proof.
  split.
  - intros H. eexists. by apply HasPrefix_split.
  - intros [rest ->]. apply HasPrefix_app.
Qed.

Lemma Index_nil (old : string) :
  Index "" old = if HasPrefix "" old then Some 0 else None.
Proof. reflexivity. Qed.

Lemma Index_cons c (s old : string) :
  Index (String c s) old =
    if HasPrefix (String c s) old then Some 0 else S <$> Index s old.
Proof. reflexivity. Qed.

(** [Index] finds an occurrence ... *)
Lemma Index_Some_split (s old : string) j :
  Index s old = Some j →
  s = take j s +:+ old +:+ drop (j + String.length old) s.
Proof.
  revert j. induction s as [|c s IH]; intros j.
  - rewrite Index_nil. destruct (HasPrefix "" old) eqn:Hp; [|done].
    intros [= <-]. by apply HasPrefix_split.
  - rewrite Index_cons. destruct (HasPrefix (String c s) old) eqn:Hp.
    + intros [= <-]. by apply HasPrefix_split.
    + destruct (Index s old) as [i|] eqn:Hi; [|done].
      intros [= <-]. simpl. rewrite app_cons. f_equal. by apply IH.
Qed.

(** ... and misses none. *)
Lemma Index_None_absent (s old : string) :
  Index s old = None → ∀ pre post, s ≠ pre +:+ old +:+ post.
Proof.
  induction s as [|c s IH].
  - rewrite Index_nil. destruct (HasPrefix "" old) eqn:Hp; [done|].
    intros _ pre post Heq.
    destruct pre; [|done]. rewrite app_empty_l in Heq.
    rewrite Heq, HasPrefix_app in Hp. done.
  - rewrite Index_cons. destruct (HasPrefix (String c s) old) eqn:Hp; [done|].
    destruct (Index s old) eqn:Hi; [done|]. intros _ pre post Heq.
    destruct pre as [|d pre].
    + rewrite app_empty_l in Heq. rewrite Heq, HasPrefix_app in Hp. done.
    + rewrite app_cons in Heq. injection Heq as _ Heq. by eapply IH.
Qed.

Lemma Contains_iff (s sub : string) :
  Contains s sub = true ↔ ∃ pre post, s = pre +:+ sub +:+ post.
Proof.
  unfold Contains. rewrite bool_decide_eq_true. split.
  - intros [j Hj]. eexists _, _. by apply Index_Some_split.
  - intros (pre & post & ->).
    destruct (Index (pre +:+ sub +:+ post) sub) eqn:Hi; [by eexists|].
    by destruct (Index_None_absent _ _ Hi pre post).
Qed.

(** The two outcomes of [strings.Replace(s, old, new, 1)]. *)
Lemma Replace1_absent (s old new : string) :
  Contains s old = false → Replace1 s old new = s.
Proof.
  unfold Contains, Replace1. rewrite bool_decide_eq_false.
  destruct (Index s old); [|done]. intros []. by eexists.
Qed.

Lemma Replace1_first (pre old post new : string) :
  Index (pre +:+ old +:+ post) old = Some (String.length pre) →
  Replace1 (pre +:+ old +:+ post) old new = pre +:+ new +:+ post.
Proof.
  unfold Replace1. intros ->.
  by rewrite take_app, drop_app, drop_app_exact.
Qed.

End StrFacts.

(* ===================================================================== *)
(** ** The glue source: writeplgo *)
(* ===================================================================== *)

Lemma bind_Ok {A B} (m : M A) (k : A → M B) w a w' :
  m w = (Ok a, w') → bind m k w = k a w'.
Proof. intros H. unfold bind. by rewrite H. Qed.

Lemma bind_Err {A B} (m : M A) (k : A → M B) w e w' :
  m w = (Err e, w') → bind m k w = (Err e, w').
Proof. intros H. unfold bind. by rewrite H. Qed.

Lemma bind_Panic {A B} (m : M A) (k : A → M B) w p w' :
  m w = (Panic p, w') → bind m k w = (Panic p, w').
Proof. intros H. unfold bind. by rewrite H. Qed.

Section Glue.
Variable env : Env.
Implicit Types (mw : ModuleWriter) (w : World) (tmp tpl rest inc : string).

Lemma writeplgo_read_error mw tmp w e :
  readPlGoSource env = Err e → writeplgo env mw tmp w = (Err e, w).
Proof. intros H. unfold writeplgo, bind, lift. by rewrite H. Qed.

Lemma writeplgo_written mw tmp w tpl rest inc :
  readPlGoSource env = Ok tpl →
  Str.slice_from tpl 12 = Some rest →
  pg_config_ok env inc →
  ioutil_WriteFile_err env (glue_path env tmp) = None →
  let text := splice_declarations (prepare_template env rest inc) (functions mw) in
  writeplgo env mw tmp w =
    (Ok tt, put_file (glue_path env tmp) text (glue_attempted env tmp text w)).
Proof.
  intros Hread Hslice Hpg Hwrite. unfold pg_config_ok, glue_path in *.
  unfold writeplgo, bind, lift, wrap, exec_Command, ioutil_WriteFile.
  by rewrite Hread, Hslice, Hpg, Hwrite.
Qed.

Lemma writeplgo_write_error mw tmp w tpl rest inc e :
  readPlGoSource env = Ok tpl →
  Str.slice_from tpl 12 = Some rest →
  pg_config_ok env inc →
  ioutil_WriteFile_err env (glue_path env tmp) = Some e →
  (writeplgo env mw tmp w).1 = Err (Wrapf "Cannot write file tempdir: " e).
Proof.
  intros Hread Hslice Hpg Hwrite. unfold pg_config_ok, glue_path in *.
  unfold writeplgo, bind, lift, wrap, exec_Command, ioutil_WriteFile.
  by rewrite Hread, Hslice, Hpg, Hwrite.
Qed.

(** Every error [writeplgo] returns comes from one of three places; none
    of them looks at the marker. *)
Lemma writeplgo_errors mw tmp w e w' :
  writeplgo env mw tmp w = (Err e, w') →
  readPlGoSource env = Err e
  ∨ (∃ cause, e = Wrapf "Cannot run pg_config: " cause)
  ∨ (∃ cause, e = Wrapf "Cannot write file tempdir: " cause).
Proof.
  unfold writeplgo, bind, lift, wrap, exec_Command, ioutil_WriteFile.
  destruct (readPlGoSource env) as [tpl|e0|p]; [|naive_solver..].
  destruct (Str.slice_from tpl 12) as [rest|]; [|done].
  destruct (exec_CombinedOutput env _ _) as [inc|e1|p]; [|naive_solver..].
  destruct (ioutil_WriteFile_err env _); naive_solver.
Qed.
End Glue.

Section GlueClaims.
Variable env : Env.
Implicit Types (mw : ModuleWriter) (w : World) (tmp tpl rest inc : string).

(** C10 (as the code has it).  [writeplgo] drops the first 12 bytes of the
    template, whatever they are, and puts the line [package main] and an
    empty line in their place: for every way of writing the template as 12
    bytes followed by a rest, the text written is built from the new clause
    and that rest alone.  On a template of fewer than 12 bytes the slice
    expression panics, before anything is run or written.  On every
    template of at least 12 bytes, whether or not it begins with a package
    clause, the slice does not panic: the step goes on, and it panics only
    if the [pg_config] call does. *)
Theorem writeplgo_package_clause mw tmp w tpl :
  readPlGoSource env = Ok tpl →
  (String.length tpl < 12 →
     writeplgo env mw tmp w = (Panic "slice bounds out of range", w))
  ∧ (∀ head rest inc,
       tpl = head +:+ rest →
       String.length head = 12 →
       pg_config_ok env inc →
       ioutil_WriteFile_err env (glue_path env tmp) = None →
       let dir := getcorrectpath env inc in
       let text :=
         splice_declarations
           (addOtherIncludesAndLDFLAGS env
              (Str.Replace1 ("package main" +:+ Str.LF +:+ Str.LF +:+ rest)
                            "/usr/include/postgresql/server" dir)
              dir)
           (functions mw) in
       writeplgo env mw tmp w =
         (Ok tt, put_file (glue_path env tmp) text (glue_attempted env tmp text w)))
  ∧ (12 ≤ String.length tpl →
     (∃ head rest, tpl = head +:+ rest ∧ String.length head = 12)
     ∧ (∀ p, (writeplgo env mw tmp w).1 = Panic p →
             exec_CombinedOutput env "pg_config" ["--includedir-server"] = Panic p)).
Proof.
  intros Hread. split; [intros Hlen | split; [|intros Hlen; split]].
  - unfold writeplgo, bind, lift, Str.slice_from. rewrite Hread.
    by rewrite decide_False by lia.
  - intros head rest inc -> Hhead Hpg Hwrite. cbv zeta.
    apply (writeplgo_written env mw tmp w (head +:+ rest) rest inc); try done.
    unfold Str.slice_from.
    rewrite decide_True by (rewrite StrFacts.length_app; lia).
    by rewrite <-Hhead, StrFacts.drop_app_exact.
  - exists (Str.take 12 tpl), (Str.drop 12 tpl).
    split; [by rewrite StrFacts.take_drop|]. by apply StrFacts.length_take.
  - intros p. unfold writeplgo, bind, lift, wrap, exec_Command, ioutil_WriteFile,
      Str.slice_from.
    rewrite Hread, decide_True by done.
    destruct (exec_CombinedOutput env _ _) as [inc|e|q]; simpl; [|done|congruence].
    by destruct (ioutil_WriteFile_err env _).
Qed.

(** C1 (as the code has it).  A template without the marker is no error:
    [strings.Replace] finds nothing to replace, so the prepared text is
    written as it is, with no declaration in it, and [writeplgo] returns
    nil unless the write itself fails.  The errors of [writeplgo] are
    those of the template provider (passed on unchanged, the
    not-installed error among them), of [pg_config] and of the write. *)
Theorem writeplgo_marker_absent mw tmp w :
  (∀ tpl rest inc,
     readPlGoSource env = Ok tpl →
     Str.slice_from tpl 12 = Some rest →
     pg_config_ok env inc →
     Str.Contains (prepare_template env rest inc) funcdec_marker = false →
     let text := prepare_template env rest inc in
     (ioutil_WriteFile_err env (glue_path env tmp) = None →
        writeplgo env mw tmp w =
          (Ok tt, put_file (glue_path env tmp) text (glue_attempted env tmp text w)))
     ∧ (∀ e, ioutil_WriteFile_err env (glue_path env tmp) = Some e →
        (writeplgo env mw tmp w).1 = Err (Wrapf "Cannot write file tempdir: " e)))
  ∧ (∀ e, readPlGoSource env = Err e → writeplgo env mw tmp w = (Err e, w))
  ∧ (∀ e w', writeplgo env mw tmp w = (Err e, w') →
       readPlGoSource env = Err e
       ∨ (∃ cause, e = Wrapf "Cannot run pg_config: " cause)
       ∨ (∃ cause, e = Wrapf "Cannot write file tempdir: " cause)).
Proof.
  split; [|split].
  - intros tpl rest inc Hread Hslice Hpg Habsent text.
    assert (splice_declarations (prepare_template env rest inc) (functions mw) = text)
      as Hsame by (by apply StrFacts.Replace1_absent).
    split.
    + intros Hwrite. rewrite <-Hsame. by eapply writeplgo_written.
    + intros e Hwrite. by eapply writeplgo_write_error.
  - intros e. apply writeplgo_read_error.
  - intros e w'. apply writeplgo_errors.
Qed.
End GlueClaims.

(** The 5-byte template panics; the contract-keeping one loses its clause
    [package plgo] and gets the new one. *)
Lemma writeplgo_package_clause_witness :
  writeplgo Sample.short_env Sample.demo "/tmp/plgo" Sample.w0
    = (Panic "slice bounds out of range", Sample.w0)
  ∧ ∃ w', writeplgo Sample.good_env Sample.demo "/tmp/plgo" Sample.w0 = (Ok tt, w')
          ∧ files w' !! "/tmp/plgo/pl.go"
              = Some ("package main" +:+ Str.LF +:+ Str.LF +:+ Str.LF
                      +:+ FuncDec Sample.add +:+ FuncDec Sample.greet
                      +:+ Str.LF +:+ "func init() {}" +:+ Str.LF).
Proof.
  split.
  - apply (writeplgo_package_clause Sample.short_env Sample.demo "/tmp/plgo" Sample.w0 "short");
      [reflexivity | simpl; lia].
  - destruct (writeplgo_package_clause Sample.good_env Sample.demo "/tmp/plgo" Sample.w0
                Sample.good_template eq_refl) as (_ & Hlong & _).
    eexists. split.
    + exact (Hlong "package plgo"
               (Str.LF +:+ "//{funcdec}" +:+ Str.LF +:+ "func init() {}" +:+ Str.LF)
               Sample.include_dir eq_refl eq_refl eq_refl eq_refl).
    + by vm_compute.
Defined.

(** C10, refuted as stated: a template of more than 12 bytes that begins
    with a comment, not with its package clause, does not stop the step:
    [writeplgo] returns nil, the 12 bytes of the comment are gone, and the
    old clause follows the new one. *)
Lemma writeplgo_headless_template_succeeds :
  readPlGoSource Cases.headless_env = Ok Cases.headless_template
  ∧ Str.HasPrefix Cases.headless_template "package" = false
  ∧ 12 ≤ String.length Cases.headless_template
  ∧ ∃ w', writeplgo Cases.headless_env Sample.demo "/tmp/plgo" Sample.w0 = (Ok tt, w')
          ∧ files w' !! "/tmp/plgo/pl.go"
              = Some ("package main" +:+ Str.LF +:+ Str.LF +:+ Str.LF
                      +:+ "package plgo" +:+ Str.LF
                      +:+ FuncDec Sample.add +:+ FuncDec Sample.greet +:+ Str.LF).
Proof.
  split_and!; [by vm_compute|by vm_compute|vm_compute; lia|].
  eexists. by vm_compute.
Qed.

(** C1, refuted as stated: on a machine whose template has no marker,
    [writeplgo] returns nil and writes the template with its new package
    clause and not one declaration. *)
Lemma writeplgo_bare_template_succeeds :
  readPlGoSource Sample.bare_env = Ok Sample.bare_template
  ∧ Str.Contains Sample.bare_template funcdec_marker = false
  ∧ is_Err (writeplgo Sample.bare_env Sample.demo "/tmp/plgo" Sample.w0).1 = false
  ∧ (writeplgo Sample.bare_env Sample.demo "/tmp/plgo" Sample.w0).1 = Ok tt.
Proof. by vm_compute. Qed.

Lemma writeplgo_marker_absent_witness :
  (writeplgo Sample.bare_env Sample.demo "/tmp/plgo" Sample.w0).1 = Ok tt.
Proof.
  destruct (writeplgo_marker_absent Sample.bare_env Sample.demo "/tmp/plgo" Sample.w0)
    as [Habsent _].
  destruct (Habsent Sample.bare_template (Str.drop 12 Sample.bare_template) Sample.include_dir
              eq_refl eq_refl eq_refl eq_refl) as [Hrun _].
  by rewrite (Hrun eq_refl).
Defined.

(* ===================================================================== *)
(** ** The wrapper source and the registration script *)
(* ===================================================================== *)

Section Emitters.
Variable env : Env.
Implicit Types (mw : ModuleWriter) (w : World) (fs : list CodeWriter).

Lemma files_append_file path text w :
  files (append_file path text w) !! path = Some (default "" (files w !! path) +:+ text).
Proof. unfold append_file, put_file. simpl. apply lookup_insert_eq. Qed.

(** The loop of [WriteSQL]: one write per function, in list order, each
    appended to what the file holds. *)
Lemma File_WriteString_complete (path text : string) w :
  writes_complete env path →
  File_WriteString env path text w
  = (Ok tt, append_file path text (log (EvWriteString path text) w)).
Proof. intros Hfull. unfold File_WriteString. by rewrite Hfull. Qed.

Lemma write_statements_run (sqlPath name : string) fs w (held : string) :
  writes_complete env sqlPath →
  files w !! sqlPath = Some held →
  ∃ w', write_statements env sqlPath name fs w = (Ok tt, w')
        ∧ files w' !! sqlPath = Some (held +:+ Str.concat (statements name fs))
        ∧ trace w' = trace w ++ map (EvWriteString sqlPath) (statements name fs).
Proof.
  intros Hfull. revert w held. induction fs as [|f fs IH]; intros w held Hheld.
  - exists w. simpl. by rewrite StrFacts.app_empty_r, app_nil_r.
  - set (w1 := append_file sqlPath (SQL f name) (log (EvWriteString sqlPath (SQL f name)) w)).
    destruct (IH w1 (held +:+ SQL f name)) as (w' & Hrun & Hfile & Htrace).
    { unfold w1. rewrite files_append_file. simpl. by rewrite Hheld. }
    exists w'. split; [|split].
    + simpl. unfold bind. rewrite File_WriteString_complete by done. fold w1.
      by rewrite Hrun.
    + rewrite Hfile. simpl. by rewrite StrFacts.app_assoc.
    + rewrite Htrace. simpl. by rewrite <-app_assoc.
Qed.

Lemma WriteSQL_run mw tmp w :
  os_Create_err env (sql_path env mw tmp) = None →
  writes_complete env (sql_path env mw tmp) →
  let p := sql_path env mw tmp in
  let name := PackageName mw in
  ∃ w', WriteSQL env mw tmp w = (Ok tt, w')
        ∧ files w' !! p = Some (sql_header name +:+ Str.concat (statements name (functions mw)))
        ∧ trace w' = trace w
                     ++ [EvCreate p; EvWriteString p (sql_header name)]
                     ++ map (EvWriteString p) (statements name (functions mw))
                     ++ [EvClose p].
Proof.
  intros Hcreate Hfull. cbv zeta. unfold sql_path in *.
  set (p := filepath_Join env _) in *. set (name := PackageName mw).
  set (w1 := put_file p "" (log (EvCreate p) w)).
  set (w2 := append_file p (sql_header name) (log (EvWriteString p (sql_header name)) w1)).
  destruct (write_statements_run p name (functions mw) w2 (sql_header name) Hfull)
    as (w3 & Hrun & Hfile & Htrace).
  { unfold w2. rewrite files_append_file. simpl. by rewrite lookup_insert_eq. }
  exists (log (EvClose p) w3). split; [|split].
  - unfold WriteSQL, bind, os_Create, deferred, File_Close.
    fold p name. rewrite Hcreate. fold w1.
    rewrite File_WriteString_complete by done. fold w2.
    rewrite Hrun. by destruct (File_Close_err env p).
  - done.
  - simpl. rewrite Htrace. simpl. by rewrite <-!app_assoc.
Qed.

Lemma writeExportedMethods_run mw tmp w code :
  format_Source env (methods_buffer (functions mw)) = Ok code →
  ioutil_WriteFile_err env (methods_path env tmp) = None →
  writeExportedMethods env mw tmp w =
    (Ok tt, put_file (methods_path env tmp) code (log (EvWriteFile (methods_path env tmp) code) w)).
Proof.
  intros Hfmt Hwrite.
  unfold writeExportedMethods, bind, lift, wrap, ioutil_WriteFile.
  fold (methods_path env tmp). by rewrite Hfmt, Hwrite.
Qed.

Lemma writeExportedMethods_format_error mw tmp w e :
  format_Source env (methods_buffer (functions mw)) = Err e →
  writeExportedMethods env mw tmp w = (Err e, w).
Proof. intros Hfmt. unfold writeExportedMethods, bind, lift. by rewrite Hfmt. Qed.
End Emitters.

(** C2 (as the code has it).  For a module writer with the function list
    [fs]: when the prepared template holds the marker, the glue source is
    the text before the marker's first occurrence, the [FuncDec] fragments
    of [fs] in list order, and the text after it; the wrapper source is what
    [format.Source] returns for the header followed by the [Code] fragments
    of [fs] in list order; when every write to the registration script goes
    through, the script is its header followed by the [SQL] fragments of
    [fs] in list order, written one by one.  Each of the three sequences
    has as many fragments as [fs] has functions. *)
Theorem fragments_in_list_order (env : Env) (mw : ModuleWriter) (tmp : string) (w : World) :
  let fs := functions mw in
  let name := PackageName mw in
  (∀ tpl rest inc pre post,
     readPlGoSource env = Ok tpl →
     Str.slice_from tpl 12 = Some rest →
     pg_config_ok env inc →
     ioutil_WriteFile_err env (glue_path env tmp) = None →
     prepare_template env rest inc = pre +:+ funcdec_marker +:+ post →
     Str.Index (pre +:+ funcdec_marker +:+ post) funcdec_marker = Some (String.length pre) →
     ∃ w', writeplgo env mw tmp w = (Ok tt, w')
           ∧ files w' !! glue_path env tmp
               = Some (pre +:+ Str.concat (map FuncDec fs) +:+ post))
  ∧ (∀ code,
       format_Source env (methods_header +:+ Str.concat (map Code fs)) = Ok code →
       ioutil_WriteFile_err env (methods_path env tmp) = None →
       ∃ w', writeExportedMethods env mw tmp w = (Ok tt, w')
             ∧ files w' !! methods_path env tmp = Some code)
  ∧ (os_Create_err env (sql_path env mw tmp) = None →
       writes_complete env (sql_path env mw tmp) →
       let p := sql_path env mw tmp in
       ∃ w', WriteSQL env mw tmp w = (Ok tt, w')
             ∧ files w' !! p
                 = Some (sql_header name +:+ Str.concat (map (fun f => SQL f name) fs))
             ∧ trace w' = trace w
                          ++ [EvCreate p; EvWriteString p (sql_header name)]
                          ++ map (fun f => EvWriteString p (SQL f name)) fs
                          ++ [EvClose p])
  ∧ length (map FuncDec fs) = length fs
  ∧ length (map Code fs) = length fs
  ∧ length (map (fun f => SQL f name) fs) = length fs.
Proof.
  intros fs name. repeat split; try apply length_map.
  - intros tpl rest inc pre post Hread Hslice Hpg Hwrite Hshape Hfirst.
    eexists. split; [by eapply writeplgo_written|].
    simpl. rewrite lookup_insert_eq. f_equal.
    unfold splice_declarations, declarations. rewrite Hshape.
    by apply StrFacts.Replace1_first.
  - intros code Hfmt Hwrite.
    eexists. split; [by apply writeExportedMethods_run|].
    simpl. by rewrite lookup_insert_eq.
  - intros Hcreate Hfull p.
    destruct (WriteSQL_run env mw tmp w Hcreate Hfull) as (w' & Hrun & Hfile & Htrace).
    exists w'. split; [done|]. split; [done|].
    rewrite Htrace. unfold statements. by rewrite map_map.
Qed.

Lemma fragments_in_list_order_witness :
  ∃ w1 w2 w3,
    writeplgo Sample.good_env Sample.demo "/tmp/plgo" Sample.w0 = (Ok tt, w1)
    ∧ files w1 !! "/tmp/plgo/pl.go"
        = Some (("package main" +:+ Str.LF +:+ Str.LF +:+ Str.LF)
                +:+ Str.concat [FuncDec Sample.add; FuncDec Sample.greet]
                +:+ (Str.LF +:+ "func init() {}" +:+ Str.LF))
    ∧ writeExportedMethods Sample.good_env Sample.demo "/tmp/plgo" Sample.w0 = (Ok tt, w2)
    ∧ files w2 !! "/tmp/plgo/methods.go"
        = Some (methods_header +:+ Str.concat [Code Sample.add; Code Sample.greet])
    ∧ WriteSQL Sample.good_env Sample.demo "/out" Sample.w0 = (Ok tt, w3)
    ∧ files w3 !! "/out/demo--0.1.sql"
        = Some (sql_header "demo" +:+ Str.concat [SQL Sample.add "demo"; SQL Sample.greet "demo"]).
Proof.
  destruct (fragments_in_list_order Sample.good_env Sample.demo "/tmp/plgo" Sample.w0)
    as (Hglue & Hwrap & _).
  destruct (Hglue Sample.good_template (Str.drop 12 Sample.good_template) Sample.include_dir
              ("package main" +:+ Str.LF +:+ Str.LF +:+ Str.LF)
              (Str.LF +:+ "func init() {}" +:+ Str.LF)
              eq_refl eq_refl eq_refl eq_refl eq_refl eq_refl) as (w1 & Hrun1 & Hfile1).
  destruct (Hwrap (methods_header +:+ Str.concat [Code Sample.add; Code Sample.greet])
              eq_refl eq_refl) as (w2 & Hrun2 & Hfile2).
  destruct (fragments_in_list_order Sample.good_env Sample.demo "/out" Sample.w0)
    as (_ & _ & Hsql & _).
  destruct (Hsql eq_refl (fun _ _ => eq_refl)) as (w3 & Hrun3 & Hfile3 & _).
  exists w1, w2, w3. repeat split; assumption.
Defined.

(** C2, refuted as stated: the module writer holds two functions, and the
    glue source written from the template without a marker holds neither
    declaration. *)
Lemma glue_of_bare_template_has_no_declaration :
  length (functions Sample.demo) = 2
  ∧ ∃ w' text,
      writeplgo Sample.bare_env Sample.demo "/tmp/plgo" Sample.w0 = (Ok tt, w')
      ∧ files w' !! "/tmp/plgo/pl.go" = Some text
      ∧ text = "package main" +:+ Str.LF +:+ Str.LF +:+ Str.LF +:+ "func init() {}" +:+ Str.LF
      ∧ Str.Contains text (FuncDec Sample.add) = false
      ∧ Str.Contains text (FuncDec Sample.greet) = false.
Proof. split; [done|]. eexists _, _. by vm_compute. Qed.

(** C6.  For the module [demo] with the function list [add; greet]: the
    extension descriptor holds the text [demo extension], the build
    descriptor holds [EXTENSION = demo], and the registration script is its
    header followed by the statement of [add] and then that of [greet],
    written in that order.  Each part is stated for a run in which the
    writes it makes go through. *)
Theorem demo_artifacts (env : Env) (add greet : CodeWriter) (doc : string)
    (ast : Package) (path : string) (w : World) :
  let mw := {| PackageName := "demo"; Doc := doc; packageAst := ast;
               functions := [add; greet] |} in
  (ioutil_WriteFile_err env (control_path env mw path) = None →
     ∃ w' text, WriteControl env mw path w = (Ok tt, w')
                ∧ files w' !! control_path env mw path = Some text
                ∧ Str.Contains text "demo extension" = true)
  ∧ (ioutil_WriteFile_err env (makefile_path env path) = None →
     ∃ w' text, WriteMakefile env mw path w = (Ok tt, w')
                ∧ files w' !! makefile_path env path = Some text
                ∧ Str.Contains text "EXTENSION = demo" = true)
  ∧ (os_Create_err env (sql_path env mw path) = None →
     writes_complete env (sql_path env mw path) →
     let p := sql_path env mw path in
     ∃ w', WriteSQL env mw path w = (Ok tt, w')
           ∧ files w' !! p = Some (sql_header "demo" +:+ SQL add "demo" +:+ SQL greet "demo")
           ∧ trace w' = trace w ++ [EvCreate p; EvWriteString p (sql_header "demo");
                                    EvWriteString p (SQL add "demo");
                                    EvWriteString p (SQL greet "demo"); EvClose p]).
Proof.
  intros mw. split; [|split].
  - intros Hwrite. exists (put_file (control_path env mw path) (control_text "demo")
                           (log (EvWriteFile (control_path env mw path) (control_text "demo")) w)).
    exists (control_text "demo"). split; [|split].
    + unfold WriteControl, ioutil_WriteFile. fold (control_path env mw path). by rewrite Hwrite.
    + simpl. apply lookup_insert_eq.
    + by vm_compute.
  - intros Hwrite. exists (put_file (makefile_path env path) (makefile_text "demo")
                           (log (EvWriteFile (makefile_path env path) (makefile_text "demo")) w)).
    exists (makefile_text "demo"). split; [|split].
    + unfold WriteMakefile, ioutil_WriteFile. fold (makefile_path env path). by rewrite Hwrite.
    + simpl. apply lookup_insert_eq.
    + by vm_compute.
  - intros Hcreate Hfull. cbv zeta.
    destruct (WriteSQL_run env mw path w Hcreate Hfull) as (w' & Hrun & Hfile & Htrace).
    exists w'. split; [done|]. split.
    + rewrite Hfile. simpl. by rewrite StrFacts.app_empty_r.
    + by rewrite Htrace.
Qed.

Lemma demo_artifacts_witness :
  (∃ w' text, WriteControl Sample.good_env Sample.demo "/out" Sample.w0 = (Ok tt, w')
              ∧ files w' !! "/out/demo.control" = Some text
              ∧ Str.Contains text "demo extension" = true)
  ∧ (∃ w' text, WriteMakefile Sample.good_env Sample.demo "/out" Sample.w0 = (Ok tt, w')
                ∧ files w' !! "/out/Makefile" = Some text
                ∧ Str.Contains text "EXTENSION = demo" = true)
  ∧ (∃ w', WriteSQL Sample.good_env Sample.demo "/out" Sample.w0 = (Ok tt, w')
           ∧ files w' !! "/out/demo--0.1.sql"
               = Some (sql_header "demo" +:+ SQL Sample.add "demo" +:+ SQL Sample.greet "demo")).
Proof.
  destruct (demo_artifacts Sample.good_env Sample.add Sample.greet "" Sample.main_pkg
              "/out" Sample.w0) as (Hcontrol & Hmake & Hsql).
  split; [exact (Hcontrol eq_refl)|]. split; [exact (Hmake eq_refl)|].
  destruct (Hsql eq_refl (fun _ _ => eq_refl)) as (w' & Hrun & Hfile & _). by exists w'.
Defined.

(* ===================================================================== *)
(** ** WriteModule *)
(* ===================================================================== *)

Section Assembler.
Variable env : Env.
Implicit Types (mw : ModuleWriter) (w : World) (tmp : string).

(** What each step leaves in the trace, however it ends. *)
Lemma writeUserPackage_trace mw tmp w r w' :
  writeUserPackage env mw tmp w = (r, w') →
  let p := package_path env tmp in
  ∃ l, trace w' = trace w ++ l
       ∧ l `prefix_of` [EvCreate p; EvFormatNode p; EvClose p]
       ∧ (∀ mw', r = Ok mw' →
            mw' = sanitized env mw ∧ l = [EvCreate p; EvFormatNode p; EvClose p]).
Proof.
  unfold writeUserPackage, bind, wrap, os_Create, format_Node_to, File_Close, ret.
  fold (package_path env tmp). set (p := package_path env tmp). cbv zeta.
  destruct (os_Create_err env p).
  { intros [= <- <-]. exists [EvCreate p]. split; [done|]. split; [by eexists|done]. }
  destruct (format_Node env _); simpl.
  - destruct (File_Close_err env p); intros [= <- <-]; simpl;
      rewrite <-!app_assoc; eexists; (split; [done|]); split; try done.
    intros mw' [= <-]. done.
  - intros [= <- <-]. simpl. rewrite <-!app_assoc.
    exists [EvCreate p; EvFormatNode p]. split; [done|]. split; [by eexists|done].
  - intros [= <- <-]. simpl. rewrite <-!app_assoc.
    exists [EvCreate p; EvFormatNode p]. split; [done|]. split; [by eexists|done].
Qed.

Lemma writeplgo_trace mw tmp w r w' :
  writeplgo env mw tmp w = (r, w') →
  ∃ l, trace w' = trace w ++ l
       ∧ (∀ ev, ev ∈ l → ev = pg_config_run ∨ ∃ text, ev = EvWriteFile (glue_path env tmp) text)
       ∧ (r = Ok tt → ∃ text, l = [pg_config_run; EvWriteFile (glue_path env tmp) text]).
Proof.
  unfold writeplgo, bind, lift, wrap, exec_Command, ioutil_WriteFile.
  fold (glue_path env tmp). fold pg_config_run.
  destruct (readPlGoSource env) as [tpl| |];
    [|intros [= <- <-]; exists []; rewrite app_nil_r; split_and!; [done|by intros ? ?%elem_of_nil|done]..].
  destruct (Str.slice_from tpl 12) as [rest|];
    [|intros [= <- <-]; exists []; rewrite app_nil_r; split_and!; [done|by intros ? ?%elem_of_nil|done]].
  destruct (exec_CombinedOutput env _ _) as [inc| |]; simpl;
    [|intros [= <- <-]; exists [pg_config_run]; split_and!;
      [done|intros ev Hev%list_elem_of_singleton; by left|done]..].
  destruct (ioutil_WriteFile_err env _);
    [destruct (ioutil_WriteFile_wrote env _ _)|]; intros [= <- <-]; simpl;
    rewrite <-app_assoc; eexists; (split; [done|]); split; try done.
  - intros ev Hev. apply elem_of_cons in Hev as [Hev|Hev%list_elem_of_singleton];
      subst ev; eauto.
  - intros ev Hev. apply elem_of_cons in Hev as [Hev|Hev%list_elem_of_singleton];
      subst ev; eauto.
  - intros ev Hev. apply elem_of_cons in Hev as [Hev|Hev%list_elem_of_singleton];
      subst ev; eauto.
  - intros _. by eexists.
Qed.

Lemma writeExportedMethods_trace mw tmp w w' :
  writeExportedMethods env mw tmp w = (Ok tt, w') →
  ∃ code, trace w' = trace w ++ [EvWriteFile (methods_path env tmp) code].
Proof.
  unfold writeExportedMethods, bind, lift, wrap, ioutil_WriteFile.
  fold (methods_path env tmp).
  destruct (format_Source env _) as [code| |]; [|done..].
  destruct (ioutil_WriteFile_err env _); [done|].
  intros [= <-]. by exists code.
Qed.

(** C7.  [WriteModule] writes the sanitized user source, then the glue
    source, then the wrapper source.  An error of any step is returned as
    it is and the run stops in the world that step left: nothing of a
    later step is in the trace.  A formatting failure of the wrapper
    source is such an error, returned before the wrapper file is
    touched. *)
Theorem WriteModule_fail_fast mw w :
  (∀ e w1, buildPath env w = (Err e, w1) →
     WriteModule env mw w = (Err (Wrapf "Cannot get tempdir: " e), w1))
  ∧ (∀ tmp w1, buildPath env w = (Ok tmp, w1) →
     let pkg := package_path env tmp in
     (∀ e w2, writeUserPackage env mw tmp w1 = (Err e, w2) →
        WriteModule env mw w = (Err e, w2)
        ∧ ∃ l, trace w2 = trace w1 ++ l
               ∧ l `prefix_of` [EvCreate pkg; EvFormatNode pkg; EvClose pkg])
     ∧ (∀ mw' w2, writeUserPackage env mw tmp w1 = (Ok mw', w2) →
        trace w2 = trace w1 ++ [EvCreate pkg; EvFormatNode pkg; EvClose pkg]
        ∧ (∀ e w3, writeplgo env mw' tmp w2 = (Err e, w3) →
             WriteModule env mw w = (Err e, w3)
             ∧ ∃ l, trace w3 = trace w2 ++ l
                    ∧ ∀ ev, ev ∈ l →
                        ev = pg_config_run ∨ ∃ text, ev = EvWriteFile (glue_path env tmp) text)
        ∧ (∀ w3, writeplgo env mw' tmp w2 = (Ok tt, w3) →
             (∃ text, trace w3 = trace w2 ++ [pg_config_run; EvWriteFile (glue_path env tmp) text])
             ∧ (∀ e w4, writeExportedMethods env mw' tmp w3 = (Err e, w4) →
                  WriteModule env mw w = (Err e, w4))
             ∧ (∀ e, format_Source env (methods_buffer (functions mw')) = Err e →
                  WriteModule env mw w = (Err e, w3))
             ∧ (∀ w4, writeExportedMethods env mw' tmp w3 = (Ok tt, w4) →
                  WriteModule env mw w = (Ok tmp, w4)
                  ∧ ∃ code, trace w4 = trace w3 ++ [EvWriteFile (methods_path env tmp) code])))).
Proof.
  split.
  { intros e w1 Hbuild. unfold WriteModule, bind, wrap. by rewrite Hbuild. }
  intros tmp w1 Hbuild pkg.
  assert (wrap "Cannot get tempdir: " (buildPath env) w = (Ok tmp, w1)) as Hstart.
  { unfold wrap. by rewrite Hbuild. }
  unfold WriteModule. rewrite (bind_Ok _ _ _ _ _ Hstart). split.
  { intros e w2 Huser. split; [by rewrite (bind_Err _ _ _ _ _ Huser)|].
    destruct (writeUserPackage_trace _ _ _ _ _ Huser) as (l & Hl & Hpre & _). eauto. }
  intros mw' w2 Huser.
  destruct (writeUserPackage_trace _ _ _ _ _ Huser) as (l & Hl & _ & Hok).
  destruct (Hok mw' eq_refl) as [_ ->]. split; [done|].
  rewrite (bind_Ok _ _ _ _ _ Huser). split.
  { intros e w3 Hglue. split; [by rewrite (bind_Err _ _ _ _ _ Hglue)|].
    destruct (writeplgo_trace _ _ _ _ _ Hglue) as (l' & Hl' & Hevs & _). eauto. }
  intros w3 Hglue. split.
  { destruct (writeplgo_trace _ _ _ _ _ Hglue) as (l' & Hl' & _ & Hfull).
    destruct (Hfull eq_refl) as [text ->]. eauto. }
  rewrite (bind_Ok _ _ _ _ _ Hglue). split; [|split].
  - intros e w4 Hwrap. by rewrite (bind_Err _ _ _ _ _ Hwrap).
  - intros e Hfmt.
    by rewrite (bind_Err _ _ _ _ _ (writeExportedMethods_format_error env mw' tmp w3 e Hfmt)).
  - intros w4 Hwrap. split; [by rewrite (bind_Ok _ _ _ _ _ Hwrap)|].
    by apply (writeExportedMethods_trace mw').
Qed.
End Assembler.

Lemma WriteModule_fail_fast_witness :
  (∃ w', WriteModule Sample.good_env Sample.demo Sample.w0 = (Ok "/tmp/plgo", w'))
  ∧ (∃ w', WriteModule Sample.unformattable_env Sample.demo Sample.w0
             = (Err Sample.syntax_error, w')
           ∧ files w' !! "/tmp/plgo/methods.go" = None).
Proof.
  split.
  - destruct (WriteModule_fail_fast Sample.good_env Sample.demo Sample.w0) as [_ Hrun].
    destruct (Hrun "/tmp/plgo" Sample.w0 eq_refl) as [_ Huser].
    eassert (writeUserPackage Sample.good_env Sample.demo "/tmp/plgo" Sample.w0 = (Ok _, _))
      as Hu by (vm_compute; reflexivity).
    destruct (Huser _ _ Hu) as (_ & _ & Hglue).
    match type of Hu with
    | _ = (Ok ?m, ?w2) =>
        eassert (writeplgo Sample.good_env m "/tmp/plgo" w2 = (Ok tt, _))
          as Hg by (vm_compute; reflexivity)
    end.
    destruct (Hglue _ Hg) as (_ & _ & _ & Hwrap).
    match type of Hg with
    | writeplgo _ ?m _ _ = (_, ?w3) =>
        eassert (writeExportedMethods Sample.good_env m "/tmp/plgo" w3 = (Ok tt, _))
          as Hm by (vm_compute; reflexivity)
    end.
    destruct (Hwrap _ Hm) as [Hdone _].
    eexists. exact Hdone.
  - destruct (WriteModule_fail_fast Sample.unformattable_env Sample.demo Sample.w0) as [_ Hrun].
    destruct (Hrun "/tmp/plgo" Sample.w0 eq_refl) as [_ Huser].
    eassert (writeUserPackage Sample.unformattable_env Sample.demo "/tmp/plgo" Sample.w0
             = (Ok _, _)) as Hu by (vm_compute; reflexivity).
    destruct (Huser _ _ Hu) as (_ & _ & Hglue).
    match type of Hu with
    | _ = (Ok ?m, ?w2) =>
        eassert (writeplgo Sample.unformattable_env m "/tmp/plgo" w2 = (Ok tt, _))
          as Hg by (vm_compute; reflexivity)
    end.
    destruct (Hglue _ Hg) as (_ & _ & Hfmt & _).
    eexists. split; [exact (Hfmt Sample.syntax_error eq_refl)|]. by vm_compute.
Defined.

(* ===================================================================== *)
(** ** The manifest resolver: versionInfo *)
(* ===================================================================== *)

Section Manifest.
Variable env : Env.
Implicit Types (reqs : list Require) (m v : string).

Lemma find_version_Some reqs m v :
  find_version reqs m = Some v →
  ∃ before req after,
    reqs = before ++ req :: after
    ∧ Mod_Path req = m ∧ Mod_Version req = v
    ∧ Forall (fun r => Mod_Path r ≠ m) before.
Proof.
  induction reqs as [|req reqs IH]; simpl; [done|].
  destruct (decide (Mod_Path req = m)) as [Heq|Hne].
  - intros [= <-]. by exists [], req, reqs.
  - intros (before & r & after & -> & Hpath & Hver & Hfresh)%IH.
    exists (req :: before), r, after. split_and!; try done. by constructor.
Qed.

Lemma find_version_None reqs m :
  find_version reqs m = None ↔ ∀ req, req ∈ reqs → Mod_Path req ≠ m.
Proof.
  induction reqs as [|req reqs IH]; simpl.
  - split; [|done]. by intros _ r ?%elem_of_nil.
  - destruct (decide (Mod_Path req = m)) as [Heq|Hne].
    + split; [done|]. intros Hall. destruct (Hall req); [by left|done].
    + rewrite IH. split.
      * intros Hall r [->|Hr]%elem_of_cons; auto.
      * intros Hall r Hr. apply Hall. by right.
Qed.

(** C8.  [versionInfo] returns the version of the first requirement of
    the parsed [go.mod] whose path is the identifier asked for; it fails
    when [go.mod] does not exist, and it fails when no requirement has
    that path; whenever it succeeds, [go.mod] was read and parsed and the
    version returned is that of a requirement with that path. *)
Theorem versionInfo_spec m :
  (∀ gomod reqs,
     ioutil_ReadFile env "go.mod" = Ok gomod →
     modfile_Parse env "go.mod" gomod = Ok reqs →
     (∃ req, req ∈ reqs ∧ Mod_Path req = m) →
     ∃ before req after,
       reqs = before ++ req :: after
       ∧ Mod_Path req = m
       ∧ Forall (fun r => Mod_Path r ≠ m) before
       ∧ versionInfo env m = Ok (Mod_Version req))
  ∧ (∀ e, ioutil_ReadFile env "go.mod" = Err e → os_IsNotExist e = true →
       versionInfo env m = Err (Errorf "go.mod is missing. Please run go mod init"))
  ∧ (∀ gomod reqs,
       ioutil_ReadFile env "go.mod" = Ok gomod →
       modfile_Parse env "go.mod" gomod = Ok reqs →
       (∀ req, req ∈ reqs → Mod_Path req ≠ m) →
       versionInfo env m = Err (Errorf ("Cannot find " +:+ m +:+ " in go.mod")))
  ∧ (∀ v, versionInfo env m = Ok v →
       ∃ gomod reqs req,
         ioutil_ReadFile env "go.mod" = Ok gomod
         ∧ modfile_Parse env "go.mod" gomod = Ok reqs
         ∧ req ∈ reqs ∧ Mod_Path req = m ∧ Mod_Version req = v).
Proof.
  split_and!.
  - intros gomod reqs Hread Hparse (req & Hin & Hpath).
    unfold versionInfo. rewrite Hread, Hparse.
    destruct (find_version reqs m) as [v|] eqn:Hfind.
    + destruct (find_version_Some _ _ _ Hfind) as (before & r & after & ? & ? & <- & ?).
      by exists before, r, after.
    + rewrite find_version_None in Hfind. by destruct (Hfind req).
  - intros e Hread Hmissing. unfold versionInfo. by rewrite Hread, Hmissing.
  - intros gomod reqs Hread Hparse Hnone. unfold versionInfo. rewrite Hread, Hparse.
    apply find_version_None in Hnone. by rewrite Hnone.
  - intros v. unfold versionInfo.
    destruct (ioutil_ReadFile env "go.mod") as [gomod|e|p] eqn:Hread;
      [| by destruct (os_IsNotExist e) | done].
    destruct (modfile_Parse env "go.mod" gomod) as [reqs| |] eqn:Hparse; [|done..].
    destruct (find_version reqs m) as [v'|] eqn:Hfind; [|done]. intros [= <-].
    destruct (find_version_Some _ _ _ Hfind) as (before & r & after & -> & ? & ? & _).
    exists gomod, (before ++ r :: after), r. split_and!; try done.
    apply elem_of_app. right. by left.
Qed.
End Manifest.

Lemma versionInfo_spec_witness :
  versionInfo Sample.gomod_env "github.com/algonode/plgo" = Ok "v0.1.2"
  ∧ versionInfo Sample.good_env "github.com/algonode/plgo"
      = Err (Errorf "go.mod is missing. Please run go mod init")
  ∧ versionInfo Sample.gomod_env "github.com/jackc/pgx"
      = Err (Errorf "Cannot find github.com/jackc/pgx in go.mod").
Proof.
  split; [|split].
  - destruct (versionInfo_spec Sample.gomod_env "github.com/algonode/plgo") as [Hfound _].
    destruct (Hfound "module demo" Sample.pinned eq_refl eq_refl)
      as (before & req & after & Hsplit & Hpath & Hfresh & Hrun).
    { exists {| Mod_Path := "github.com/algonode/plgo"; Mod_Version := "v0.1.2" |}.
      split; [|reflexivity]. apply elem_of_cons. right. by left. }
    rewrite Hrun. f_equal.
    destruct before as [|r0 before]; [injection Hsplit as <- _; done|].
    injection Hsplit as <- Hsplit.
    destruct before as [|r1 before]; [by injection Hsplit as <- _|].
    injection Hsplit as <- Hsplit.
    apply Forall_cons in Hfresh as [_ Hfresh]. by apply Forall_cons in Hfresh as [[] _].
  - destruct (versionInfo_spec Sample.good_env "github.com/algonode/plgo") as (_ & Hmissing & _).
    exact (Hmissing _ eq_refl eq_refl).
  - destruct (versionInfo_spec Sample.gomod_env "github.com/jackc/pgx") as (_ & _ & Habsent & _).
    apply (Habsent "module demo" Sample.pinned eq_refl eq_refl).
    intros req Hreq. apply elem_of_cons in Hreq as [->|Hreq]; [done|].
    by apply list_elem_of_singleton in Hreq as ->.
Defined.

(* ===================================================================== *)
(** ** The source analyzer: NewModuleWriter *)
(* ===================================================================== *)

Section Analyzer.
Variable env : Env.
Implicit Types (mw : ModuleWriter) (w : World) (path : string) (pick walk : range_order).

Lemma collect_doc_concat (visit : list (string * File)) (acc : string) :
  collect_doc visit acc = acc +:+ Str.concat (map doc_line visit).
Proof.
  revert acc. induction visit as [|[name file] visit IH]; intros acc; simpl.
  - by rewrite StrFacts.app_empty_r.
  - rewrite IH. unfold doc_line. simpl. by rewrite !StrFacts.app_assoc.
Qed.


(** C4.  When the directory parses, without error, into more than one
    package, [NewModuleWriter] returns the more-than-one-package error,
    whatever the iteration order, and leaves the world as it found it: no
    file is written and no module writer exists to emit from. *)
Theorem NewModuleWriter_multiple_packages path w (f : gmap string Package) :
  parser_ParseDir env path filtertestfiles = (f, None) →
  1 < size f →
  (∀ pick walk, NewModuleWriter_run env pick walk path w
           = (Err (Errorf ("More than one package in " +:+ path)), w))
  ∧ (∀ r, NewModuleWriter env path w r →
          r = (Err (Errorf ("More than one package in " +:+ path)), w)).
Proof.
  intros Hparse Hsize.
  assert (∀ pick walk, NewModuleWriter_run env pick walk path w
                  = (Err (Errorf ("More than one package in " +:+ path)), w)) as Hrun.
  { intros pick walk. unfold NewModuleWriter_run. rewrite Hparse.
    by rewrite decide_True by done. }
  split; [done|]. intros r (pick & walk & _ & _ & <-). apply Hrun.
Qed.

(** C5.  When the directory parses, without error, into one package whose
    identifier is not [main], [NewModuleWriter] returns the no-package-main
    error, which is not the more-than-one-package error of any path. *)
Theorem NewModuleWriter_not_main pick walk path w (name : string) (pkg : Package) :
  parser_ParseDir env path filtertestfiles = ({[ name := pkg ]}, None) →
  name ≠ "main" →
  NewModuleWriter_run env pick walk path w = (Err (Errorf ("No package main in " +:+ path)), w)
  ∧ ∀ path', Errorf ("No package main in " +:+ path)
             ≠ Errorf ("More than one package in " +:+ path').
Proof.
  intros Hparse Hname. split; [|done].
  unfold NewModuleWriter_run. rewrite Hparse.
  rewrite decide_False by (rewrite map_size_singleton; lia).
  by rewrite lookup_singleton_ne.
Qed.

(** C9.  The [PackageName] of a module writer is the base name of the
    absolute path of the directory; the package it holds is the one the
    parser filed under the identifier [main]. *)
Theorem NewModuleWriter_PackageName pick walk path w mw w' :
  NewModuleWriter_run env pick walk path w = (Ok mw, w') →
  ∃ (f : gmap string Package) (absPackagePath : string),
    parser_ParseDir env path filtertestfiles = (f, None)
    ∧ f !! "main" = Some (packageAst mw)
    ∧ filepath_Abs env path = Ok absPackagePath
    ∧ PackageName mw = filepath_Base env absPackagePath.
Proof.
  unfold NewModuleWriter_run.
  destruct (parser_ParseDir env path filtertestfiles) as [f [e|]]; [done|].
  destruct (decide (1 < size f)); [done|].
  destruct (f !! "main") as [ast|] eqn:Hmain; [|done].
  destruct (FuncVisitor_Walk env ast _) as [funcs [e|]]; [done|].
  unfold bind, lift, ret. destruct (filepath_Abs env path) as [abs| |]; [|done..].
  intros [= <- <-]. by exists f, abs.
Qed.
End Analyzer.

Lemma NewModuleWriter_multiple_packages_witness :
  NewModuleWriter_run Sample.two_packages_env map_to_list map_to_list "/home/u/demo" Sample.w0
    = (Err (Errorf "More than one package in /home/u/demo"), Sample.w0).
Proof.
  destruct (NewModuleWriter_multiple_packages Sample.two_packages_env "/home/u/demo" Sample.w0
              {[ "main" := Sample.main_pkg; "util" := Sample.other_pkg ]} eq_refl)
    as [Hrun _]; [by vm_compute|].
  apply Hrun.
Defined.

Lemma NewModuleWriter_not_main_witness :
  NewModuleWriter_run Sample.util_env map_to_list map_to_list "/home/u/demo" Sample.w0
    = (Err (Errorf "No package main in /home/u/demo"), Sample.w0).
Proof.
  apply (NewModuleWriter_not_main Sample.util_env map_to_list map_to_list "/home/u/demo" Sample.w0
           "util" Sample.other_pkg eq_refl).
  done.
Defined.

(** The directory is called [demo]; the package in it is called [main]. *)
Lemma NewModuleWriter_PackageName_witness :
  ∃ mw, NewModuleWriter_run Sample.good_env map_to_list map_to_list "/home/u/demo" Sample.w0
          = (Ok mw, Sample.w0)
        ∧ PackageName mw = "demo"
        ∧ packageAst mw = Sample.main_pkg.
Proof.
  eassert (NewModuleWriter_run Sample.good_env map_to_list map_to_list "/home/u/demo" Sample.w0
           = (Ok _, Sample.w0)) as Hrun by (vm_compute; reflexivity).
  destruct (NewModuleWriter_PackageName _ _ _ _ _ _ _ Hrun) as (f & abs & Hparse & Hmain & Habs & Hname).
  eexists. split; [exact Hrun|]. split.
  - rewrite Hname. injection Habs as <-. by vm_compute.
  - injection Hparse as <-. rewrite lookup_singleton_eq in Hmain. congruence.
Defined.

(* ===================================================================== *)
(** ** Running the pipeline twice *)
(* ===================================================================== *)

Section Rerun.
Variable env : Env.
Implicit Types (mw : ModuleWriter) (w : World) (path : string) (pick walk : range_order).








End Rerun.


Lemma legal_reverse : legal_range (reverse ∘ map_to_list).
Proof. intros m. simpl. apply reverse_Permutation. Qed.



(* ===================================================================== *)
(** ** ToUnexported and the test-file filter *)
(* ===================================================================== *)

Section NamingFacts.
Variable unicode_ToLower : string → string.

Lemma to_lower_not_upper (c : ascii) : Bytes.is_upper (Bytes.to_lower c) = false.
Proof. destruct c as [[] [] [] [] [] [] [] []]; by vm_compute. Qed.

Lemma to_lower_ascii (c : ascii) :
  Bytes.is_ascii c = true → Bytes.is_ascii (Bytes.to_lower c) = true.
Proof. destruct c as [[] [] [] [] [] [] [] []]; by vm_compute. Qed.

Lemma to_lower_fixed (c : ascii) : Bytes.is_upper c = false → Bytes.to_lower c = c.
Proof. unfold Bytes.to_lower. by intros ->. Qed.

Lemma ToUnexported_cons (c : ascii) (rest : string) :
  ToUnexported unicode_ToLower (String c rest)
  = Ok (strings_ToLower unicode_ToLower (String c "") +:+ rest).
Proof.
  unfold ToUnexported, Bytes.slice, Str.slice_from. simpl String.length.
  rewrite decide_True by lia. rewrite decide_True by lia. done.
Qed.

(** X1.  [ToUnexported] panics on the empty name and on no other: every
    non-empty name gets an answer. *)
Theorem ToUnexported_panics_iff_empty (name : string) :
  (∃ p, ToUnexported unicode_ToLower name = Panic p) ↔ name = "".
Proof.
  split.
  - intros [p Hp]. destruct name as [|c rest]; [done|].
    by rewrite ToUnexported_cons in Hp.
  - intros ->. by eexists.
Qed.

(** X2.  On a name whose first byte is ASCII, [ToUnexported] lowers that
    byte and keeps the rest of the name as it is: the length is kept, the
    answer is not an exported name, a name that was not exported comes back
    unchanged, and a second application changes nothing more. *)
Theorem ToUnexported_ascii (c : ascii) (rest : string) :
  Bytes.is_ascii c = true →
  let lowered := String (Bytes.to_lower c) rest in
  ToUnexported unicode_ToLower (String c rest) = Ok lowered
  ∧ String.length lowered = String.length (String c rest)
  ∧ exported lowered = false
  ∧ (exported (String c rest) = false → lowered = String c rest)
  ∧ ToUnexported unicode_ToLower lowered = Ok lowered.
Proof.
  intros Hascii lowered.
  assert (∀ d, Bytes.is_ascii d = true →
               ToUnexported unicode_ToLower (String d rest) = Ok (String (Bytes.to_lower d) rest))
    as Hrun.
  { intros d Hd. rewrite ToUnexported_cons. unfold strings_ToLower. simpl.
    by rewrite Hd. }
  split_and!.
  - by apply Hrun.
  - done.
  - apply to_lower_not_upper.
  - simpl. intros Hlow. unfold lowered. by rewrite to_lower_fixed.
  - unfold lowered. rewrite Hrun by by apply to_lower_ascii.
    by rewrite (to_lower_fixed _ (to_lower_not_upper c)).
Qed.
End NamingFacts.

Lemma ToUnexported_ascii_witness :
  ToUnexported Cases.no_unicode "Add" = Ok "add"
  ∧ ToUnexported Cases.no_unicode "add" = Ok "add".
Proof.
  destruct (ToUnexported_ascii Cases.no_unicode "A" "dd" eq_refl) as (Hrun & _ & _ & _ & Hagain).
  split; [exact Hrun | exact Hagain].
Defined.

Module SuffixFacts.
Import Str StrFacts.

Lemma rev_app_spec (s acc : string) : String.rev_app s acc = String.rev s +:+ acc.
Proof.
  revert acc. induction s as [|c s IH]; intros acc; [done|].
  unfold String.rev. simpl. by rewrite (IH (String c "")), IH, app_assoc.
Qed.

Lemma rev_cons c (s : string) : String.rev (String c s) = String.rev s +:+ String c "".
Proof. unfold String.rev at 1. simpl. apply rev_app_spec. Qed.

Lemma rev_app (s t : string) : String.rev (s +:+ t) = String.rev t +:+ String.rev s.
Proof.
  induction s as [|c s IH].
  - by rewrite app_empty_l, app_empty_r.
  - by rewrite app_cons, !rev_cons, IH, app_assoc.
Qed.

Lemma rev_involutive (s : string) : String.rev (String.rev s) = s.
Proof.
  induction s as [|c s IH]; [done|].
  by rewrite rev_cons, rev_app, IH.
Qed.

Lemma HasSuffix_iff (s suffix : string) :
  HasSuffix s suffix = true ↔ ∃ stem, s = stem +:+ suffix.
Proof.
  unfold HasSuffix. rewrite HasPrefix_iff. split.
  - intros [r Hr]. exists (String.rev r).
    by rewrite <-(rev_involutive s), Hr, rev_app, rev_involutive.
  - intros [stem ->]. exists (String.rev stem). apply rev_app.
Qed.

End SuffixFacts.

(** X3.  The filter handed to the parser drops a file exactly when its
    name ends in [_test.go]; a name that only contains that text is
    kept. *)
Theorem filtertestfiles_spec (name : string) :
  filtertestfiles name = false ↔ ∃ stem, name = stem +:+ "_test.go".
Proof.
  unfold filtertestfiles. rewrite <-SuffixFacts.HasSuffix_iff.
  by destruct (Str.HasSuffix name "_test.go").
Qed.

(* ===================================================================== *)
(** ** More on NewModuleWriter *)
(* ===================================================================== *)

Section AnalyzerFacts.
Variable env : Env.
Implicit Types (mw : ModuleWriter) (w : World) (path : string) (pick walk : range_order).

Lemma map_singleton_of_size {A} (f : gmap string A) (k : string) (v : A) :
  size f ≤ 1 → f !! k = Some v → f = {[ k := v ]}.
Proof.
  intros Hsize Hk. rewrite <-(insert_delete_id f k v Hk).
  assert (delete k f = ∅) as ->; [|by rewrite insert_empty].
  apply map_size_empty_inv. rewrite map_size_delete, Hk. lia.
Qed.

Lemma NewModuleWriter_run_Ok pick walk path w mw w' :
  NewModuleWriter_run env pick walk path w = (Ok mw, w') →
  parser_ParseDir env path filtertestfiles = ({[ "main" := packageAst mw ]}, None)
  ∧ FuncVisitor_Walk env (packageAst mw) (walk (Files (packageAst mw))) = (functions mw, None)
  ∧ Doc mw = Str.concat (map doc_line (pick (Files (packageAst mw))))
  ∧ w' = w.
Proof.
  unfold NewModuleWriter_run.
  destruct (parser_ParseDir env path filtertestfiles) as [f [e|]]; [done|].
  destruct (decide (1 < size f)) as [|Hsize]; [done|].
  destruct (f !! "main") as [ast|] eqn:Hmain; [|done].
  destruct (FuncVisitor_Walk env ast _) as [funcs [e|]] eqn:Hwalk; [done|].
  unfold bind, lift, ret. destruct (filepath_Abs env path) as [abs| |]; [|done..].
  intros [= <- <-]. simpl. split_and!; try done.
  - f_equal. apply map_singleton_of_size; [lia|done].
  - by rewrite collect_doc_concat.
Qed.

(** X4.  A module writer is built only from a directory that parsed
    without error into exactly one package, the one called [main]; its
    function list is what the visitor collected without error from the
    files in the order [ast.Walk] met them, and its [Doc] is one line per
    file in the order the loop met the files.
    Building it leaves the world as it was. *)
Theorem NewModuleWriter_success pick walk path w mw w' :
  NewModuleWriter_run env pick walk path w = (Ok mw, w') →
  parser_ParseDir env path filtertestfiles = ({[ "main" := packageAst mw ]}, None)
  ∧ FuncVisitor_Walk env (packageAst mw) (walk (Files (packageAst mw))) = (functions mw, None)
  ∧ Doc mw = Str.concat (map doc_line (pick (Files (packageAst mw))))
  ∧ w' = w.
Proof. apply NewModuleWriter_run_Ok. Qed.

(** X5.  The order of the checks: a parse error is reported whatever the
    parser returned beside it; a directory without any package gets the
    no-package-main error; an error of the visitor is returned as it is,
    before the absolute path is asked for.  None of these runs touches the
    world. *)
Theorem NewModuleWriter_error_order pick walk path w :
  (∀ f e, parser_ParseDir env path filtertestfiles = (f, Some e) →
        NewModuleWriter_run env pick walk path w = (Err (Wrapf "Cannot parse package: " e), w))
  ∧ (parser_ParseDir env path filtertestfiles = (∅, None) →
       NewModuleWriter_run env pick walk path w = (Err (Errorf ("No package main in " +:+ path)), w))
  ∧ (∀ ast funcs e,
       parser_ParseDir env path filtertestfiles = ({[ "main" := ast ]}, None) →
       FuncVisitor_Walk env ast (walk (Files ast)) = (funcs, Some e) →
       NewModuleWriter_run env pick walk path w = (Err e, w)).
Proof.
  split_and!.
  - intros f e Hparse. unfold NewModuleWriter_run. by rewrite Hparse.
  - intros Hparse. unfold NewModuleWriter_run. rewrite Hparse.
    rewrite decide_False by (rewrite map_size_empty; lia). by rewrite lookup_empty.
  - intros ast funcs e Hparse Hwalk. unfold NewModuleWriter_run. rewrite Hparse.
    rewrite decide_False by (rewrite map_size_singleton; lia).
    by rewrite lookup_singleton_eq, Hwalk.
Qed.

(** X6.  For a package of one file the [Doc] blob does not depend on the
    iteration order: it is the text of that file's doc comment and a
    newline (a lone newline when the file has no doc comment). *)
Theorem Doc_of_single_file pick walk path w mw w' (name : string) (file : File) :
  legal_range pick →
  NewModuleWriter_run env pick walk path w = (Ok mw, w') →
  Files (packageAst mw) = {[ name := file ]} →
  Doc mw = CommentGroup_Text (Doc_group file) +:+ Str.LF.
Proof.
  intros Hlegal Hrun Hfiles.
  destruct (NewModuleWriter_run_Ok _ _ _ _ _ _ Hrun) as (_ & _ & -> & _).
  pose proof (Hlegal (Files (packageAst mw))) as Hperm.
  rewrite Hfiles, map_to_list_singleton in Hperm.
  apply Permutation_singleton_r in Hperm. rewrite Hfiles, Hperm. simpl.
  by rewrite StrFacts.app_empty_r.
Qed.

Lemma length_concat (l : list string) :
  String.length (Str.concat l) = sum_list (map String.length l).
Proof.
  induction l as [|x l IH]; [done|]. simpl. by rewrite StrFacts.length_app, IH.
Qed.

Lemma length_doc_line (entry : string * File) : 1 ≤ String.length (doc_line entry).
Proof. unfold doc_line. rewrite StrFacts.length_app. simpl. lia. Qed.

Lemma sum_list_ge_length (l : list nat) : Forall (fun n => 1 ≤ n) l → length l ≤ sum_list l.
Proof. induction 1; simpl; lia. Qed.

(** X7.  Whatever the iteration order, the [Doc] blob has the same
    length, the sum over the files of the length of the doc text plus one;
    so it holds at least one byte per file and is empty only for a package
    without files. *)
Theorem Doc_length pick walk path w mw w' :
  legal_range pick →
  NewModuleWriter_run env pick walk path w = (Ok mw, w') →
  let entries := map_to_list (Files (packageAst mw)) in
  String.length (Doc mw)
    = sum_list (map (fun e => String.length (CommentGroup_Text (Doc_group e.2)) + 1) entries)
  ∧ size (Files (packageAst mw)) ≤ String.length (Doc mw)
  ∧ (Doc mw = "" → Files (packageAst mw) = ∅).
Proof.
  intros Hlegal Hrun entries.
  destruct (NewModuleWriter_run_Ok _ _ _ _ _ _ Hrun) as (_ & _ & Hdoc & _).
  assert (String.length (Doc mw) = sum_list (map String.length (map doc_line entries))) as Hlen.
  { rewrite Hdoc, length_concat. by rewrite (Hlegal _). }
  assert (size (Files (packageAst mw)) ≤ String.length (Doc mw)) as Hsize.
  { rewrite Hlen. etrans; [|apply sum_list_ge_length].
    - rewrite !length_map. unfold entries. by rewrite length_map_to_list.
    - apply Forall_map, Forall_map, Forall_true. intros e. apply length_doc_line. }
  split_and!; [|done|].
  - rewrite Hlen, map_map. f_equal. apply map_ext. intros e. unfold doc_line.
    rewrite StrFacts.length_app. done.
  - intros Hempty. rewrite Hempty in Hsize. simpl in Hsize.
    apply map_size_empty_inv. lia.
Qed.
End AnalyzerFacts.

Lemma NewModuleWriter_success_witness :
  parser_ParseDir Sample.good_env "/home/u/demo" filtertestfiles
  = ({[ "main" := Sample.main_pkg ]}, None).
Proof.
  eassert (NewModuleWriter_run Sample.good_env map_to_list map_to_list "/home/u/demo" Sample.w0
           = (Ok _, _)) as Hrun by (vm_compute; reflexivity).
  destruct (NewModuleWriter_success _ _ _ _ _ _ _ Hrun) as (Hparse & _).
  exact Hparse.
Defined.

Lemma NewModuleWriter_error_order_witness :
  NewModuleWriter_run Cases.unparsable_env map_to_list map_to_list "/home/u/demo" Sample.w0
    = (Err (Wrapf "Cannot parse package: " Cases.parse_error), Sample.w0)
  ∧ NewModuleWriter_run Cases.empty_env map_to_list map_to_list "/home/u/demo" Sample.w0
    = (Err (Errorf "No package main in /home/u/demo"), Sample.w0).
Proof.
  split.
  - destruct (NewModuleWriter_error_order Cases.unparsable_env map_to_list map_to_list "/home/u/demo"
                Sample.w0) as (Hparse & _).
    exact (Hparse _ _ eq_refl).
  - destruct (NewModuleWriter_error_order Cases.empty_env map_to_list map_to_list "/home/u/demo"
                Sample.w0) as (_ & Hempty & _).
    exact (Hempty eq_refl).
Defined.

Lemma Doc_of_single_file_witness :
  ∃ mw, NewModuleWriter_run Cases.one_file_env (reverse ∘ map_to_list) (reverse ∘ map_to_list) "/home/u/demo" Sample.w0
          = (Ok mw, Sample.w0)
        ∧ Doc mw = "Package main adds." +:+ Str.LF.
Proof.
  eassert (NewModuleWriter_run Cases.one_file_env (reverse ∘ map_to_list) (reverse ∘ map_to_list) "/home/u/demo"
             Sample.w0 = (Ok _, Sample.w0)) as Hrun by (vm_compute; reflexivity).
  eexists. split; [exact Hrun|].
  exact (Doc_of_single_file _ _ _ _ _ _ _ "a.go" Sample.file_a legal_reverse Hrun eq_refl).
Defined.

Lemma Doc_length_witness :
  ∃ mw, NewModuleWriter_run Sample.good_env (reverse ∘ map_to_list) (reverse ∘ map_to_list) "/home/u/demo" Sample.w0
          = (Ok mw, Sample.w0)
        ∧ 2 ≤ String.length (Doc mw).
Proof.
  eassert (NewModuleWriter_run Sample.good_env (reverse ∘ map_to_list) (reverse ∘ map_to_list) "/home/u/demo"
             Sample.w0 = (Ok _, Sample.w0)) as Hrun by (vm_compute; reflexivity).
  eexists. split; [exact Hrun|].
  destruct (Doc_length _ _ _ _ _ _ _ legal_reverse Hrun) as (_ & Hsize & _).
  exact Hsize.
Defined.

(* ===================================================================== *)
(** ** What each write step leaves behind *)
(* ===================================================================== *)

Section StepFacts.
Variable env : Env.
Implicit Types (mw : ModuleWriter) (w : World) (tmp : string).

Lemma files_created_then_filled (p text : string) w :
  files (append_file p text (log (EvFormatNode p) (put_file p "" (log (EvCreate p) w))))
  = <[p := text]> (files w).
Proof.
  unfold append_file, put_file, log. simpl.
  by rewrite lookup_insert_eq, insert_insert_eq.
Qed.

(** X8.  When the file can be created, the tree prints and the file
    closes, [writeUserPackage] leaves [package.go] holding exactly the
    printed text, whatever the file held before, changes no other file, and
    hands back the receiver with the sanitized tree. *)
Theorem writeUserPackage_success mw tmp w (text : string) :
  os_Create_err env (package_path env tmp) = None →
  printed env mw = Ok text →
  File_Close_err env (package_path env tmp) = None →
  ∃ w', writeUserPackage env mw tmp w = (Ok (sanitized env mw), w')
        ∧ files w' = <[package_path env tmp := text]> (files w)
        ∧ (∀ q, q ≠ package_path env tmp → files w' !! q = files w !! q).
Proof.
  unfold printed, package_path. intros Hcreate Hprint Hclose.
  eexists. split; [|split].
  - unfold writeUserPackage, bind, wrap, os_Create, format_Node_to, File_Close, ret.
    cbv zeta. simpl. rewrite Hcreate, Hprint, Hclose. reflexivity.
  - simpl. by rewrite lookup_insert_eq, insert_insert_eq.
  - intros q Hq. simpl. by rewrite lookup_insert_eq, insert_insert_eq, lookup_insert_ne.
Qed.

(** X9.  When the tree does not print, [writeUserPackage] returns the
    printer's error behind the text [Cannot format package ] and returns at
    once: the file it created stays in the directory and is never
    closed. *)
Theorem writeUserPackage_format_failure mw tmp w (e : error) :
  os_Create_err env (package_path env tmp) = None →
  printed env mw = Err e →
  let p := package_path env tmp in
  ∃ w', writeUserPackage env mw tmp w = (Err (Wrapf "Cannot format package " e), w')
        ∧ trace w' = trace w ++ [EvCreate p; EvFormatNode p]
        ∧ (EvClose p ∉ [EvCreate p; EvFormatNode p])
        ∧ is_Some (files w' !! p).
Proof.
  unfold printed, package_path. intros Hcreate Hprint. cbv zeta.
  eexists. split_and!.
  - unfold writeUserPackage, bind, wrap, os_Create, format_Node_to, File_Close, ret.
    cbv zeta. simpl. rewrite Hcreate, Hprint. reflexivity.
  - simpl. by rewrite <-app_assoc.
  - intros Hin. apply elem_of_cons in Hin as [?|Hin]; [done|].
    by apply list_elem_of_singleton in Hin.
  - simpl. rewrite lookup_insert_eq. by eexists.
Qed.

(** Each write step, however it ends, changes no file but its own; the
    two steps that write in one go change nothing unless they succeed. *)
Lemma writeUserPackage_frame mw tmp w r w' :
  writeUserPackage env mw tmp w = (r, w') →
  ∀ q, q ≠ package_path env tmp → files w' !! q = files w !! q.
Proof.
  unfold writeUserPackage, bind, wrap, os_Create, format_Node_to, File_Close, ret.
  fold (package_path env tmp). set (p := package_path env tmp). cbv zeta.
  destruct (os_Create_err env p); [by intros [= <- <-]|].
  destruct (format_Node env _); simpl.
  - destruct (File_Close_err env p); intros [= <- <-] q Hq; simpl;
      by rewrite lookup_insert_eq, insert_insert_eq, lookup_insert_ne.
  - intros [= <- <-] q Hq. simpl.
    by rewrite lookup_insert_eq, insert_insert_eq, lookup_insert_ne.
  - intros [= <- <-] q Hq. simpl. by rewrite lookup_insert_ne.
Qed.

Lemma writeUserPackage_Ok mw tmp w mw' w' :
  writeUserPackage env mw tmp w = (Ok mw', w') →
  mw' = sanitized env mw
  ∧ ∃ text, printed env mw = Ok text ∧ files w' = <[package_path env tmp := text]> (files w).
Proof.
  unfold writeUserPackage, bind, wrap, os_Create, format_Node_to, File_Close, ret, printed.
  fold (package_path env tmp). set (p := package_path env tmp). cbv zeta.
  destruct (os_Create_err env p); [done|].
  destruct (format_Node env _) as [text| |]; simpl; [|done..].
  destruct (File_Close_err env p); [done|]. intros [= <- <-]. split; [done|].
  exists text. split; [done|]. simpl. by rewrite lookup_insert_eq, insert_insert_eq.
Qed.

Lemma take_all (s : string) : Str.take (String.length s) s = s.
Proof. by rewrite <-(StrFacts.app_empty_r s) at 2; rewrite StrFacts.take_app. Qed.

(** The three ways a run of [writeplgo] can leave the files: untouched;
    with [pl.go] truncated to some bytes of the glue text by a write that
    failed; with [pl.go] holding the glue text. *)
Lemma writeplgo_cases mw tmp w r w' :
  writeplgo env mw tmp w = (r, w') →
  (r ≠ Ok tt ∧ files w' = files w)
  ∨ (r ≠ Ok tt
     ∧ ∃ tpl rest inc n,
         readPlGoSource env = Ok tpl ∧ Str.slice_from tpl 12 = Some rest
         ∧ pg_config_ok env inc
         ∧ files w' = <[glue_path env tmp :=
                          Str.take n (splice_declarations (prepare_template env rest inc)
                                        (functions mw))]>
                        (files w))
  ∨ (r = Ok tt
     ∧ ∃ tpl rest inc,
         readPlGoSource env = Ok tpl ∧ Str.slice_from tpl 12 = Some rest
         ∧ pg_config_ok env inc
         ∧ files w' = <[glue_path env tmp :=
                          splice_declarations (prepare_template env rest inc) (functions mw)]>
                        (files w)).
Proof.
  unfold writeplgo, bind, lift, wrap, exec_Command, ioutil_WriteFile, pg_config_ok.
  fold (glue_path env tmp).
  destruct (readPlGoSource env) as [tpl| |]; [|intros [= <- <-]; by left..].
  destruct (Str.slice_from tpl 12) as [rest|] eqn:Hslice; [|intros [= <- <-]; by left].
  destruct (exec_CombinedOutput env _ _) as [inc| |] eqn:Hpg; simpl;
    [|intros [= <- <-]; by left..].
  destruct (ioutil_WriteFile_err env _).
  - destruct (ioutil_WriteFile_wrote env _ _) as [n|]; intros [= <- <-]; [|by left].
    right; left. split; [done|]. by exists tpl, rest, inc, n.
  - intros [= <- <-]. right; right. split; [done|]. by exists tpl, rest, inc.
Qed.

Lemma writeExportedMethods_cases mw tmp w r w' :
  writeExportedMethods env mw tmp w = (r, w') →
  (r ≠ Ok tt ∧ files w' = files w)
  ∨ (r ≠ Ok tt
     ∧ ∃ code n, format_Source env (methods_buffer (functions mw)) = Ok code
                 ∧ files w' = <[methods_path env tmp := Str.take n code]> (files w))
  ∨ (r = Ok tt
     ∧ ∃ code, format_Source env (methods_buffer (functions mw)) = Ok code
               ∧ files w' = <[methods_path env tmp := code]> (files w)).
Proof.
  unfold writeExportedMethods, bind, lift, wrap, ioutil_WriteFile.
  fold (methods_path env tmp).
  destruct (format_Source env _) as [code| |]; [|intros [= <- <-]; by left..].
  destruct (ioutil_WriteFile_err env _).
  - destruct (ioutil_WriteFile_wrote env _ _) as [n|]; intros [= <- <-]; [|by left].
    right; left. split; [done|]. by exists code, n.
  - intros [= <- <-]. right; right. split; [done|]. by exists code.
Qed.

Lemma writeplgo_touches_glue_only mw tmp w r w' :
  writeplgo env mw tmp w = (r, w') →
  ∀ q, q ≠ glue_path env tmp → files w' !! q = files w !! q.
Proof.
  intros Hrun q Hq. destruct (writeplgo_cases _ _ _ _ _ Hrun)
    as [[_ ->]|[(_ & tpl & rest & inc & n & _ & _ & _ & ->)
               |(_ & tpl & rest & inc & _ & _ & _ & ->)]]; [done|..];
    by rewrite lookup_insert_ne.
Qed.

(** X10.  [writeplgo], however it ends, changes no file other than
    [pl.go].  It changes [pl.go] only after the template was read and
    sliced and [pg_config] answered, and then [pl.go] holds the glue text
    up to some byte: all of it when nil is returned, and what a failed
    write got through otherwise. *)
Theorem writeplgo_frame mw tmp w r w' :
  writeplgo env mw tmp w = (r, w') →
  (∀ q, q ≠ glue_path env tmp → files w' !! q = files w !! q)
  ∧ (files w' = files w
     ∨ ∃ tpl rest inc n,
         readPlGoSource env = Ok tpl ∧ Str.slice_from tpl 12 = Some rest
         ∧ pg_config_ok env inc
         ∧ files w' = <[glue_path env tmp :=
                          Str.take n (splice_declarations (prepare_template env rest inc)
                                        (functions mw))]>
                        (files w))
  ∧ (r = Ok tt →
     ∃ tpl rest inc,
       readPlGoSource env = Ok tpl ∧ Str.slice_from tpl 12 = Some rest
       ∧ pg_config_ok env inc
       ∧ files w' = <[glue_path env tmp :=
                        splice_declarations (prepare_template env rest inc) (functions mw)]>
                      (files w)).
Proof.
  intros Hrun. split; [by apply (writeplgo_touches_glue_only _ _ _ _ _ Hrun)|].
  destruct (writeplgo_cases _ _ _ _ _ Hrun)
    as [[Hr Hsame]|[(Hr & tpl & rest & inc & n & Hread & Hslice & Hpg & Hfiles)
                   |(-> & tpl & rest & inc & Hread & Hslice & Hpg & Hfiles)]].
  - split; [by left|done].
  - split; [|done]. right. by exists tpl, rest, inc, n.
  - split; [|intros _; by exists tpl, rest, inc].
    right. exists tpl, rest, inc, (String.length
      (splice_declarations (prepare_template env rest inc) (functions mw))).
    by rewrite take_all.
Qed.
End StepFacts.

Lemma writeUserPackage_success_witness :
  ∃ w', writeUserPackage Sample.good_env Sample.demo "/tmp/plgo" Cases.used_world
          = (Ok (sanitized Sample.good_env Sample.demo), w')
        ∧ files w' !! "/tmp/plgo/notes.txt" = Some "keep me".
Proof.
  destruct (writeUserPackage_success Sample.good_env Sample.demo "/tmp/plgo" Cases.used_world
              "func Add()func Greet()" eq_refl) as (w' & Hrun & _ & Hframe).
  - by vm_compute.
  - reflexivity.
  - exists w'. split; [done|]. by rewrite Hframe.
Defined.

Lemma writeUserPackage_format_failure_witness :
  ∃ w', writeUserPackage Cases.unprintable_env Sample.demo "/tmp/plgo" Sample.w0
          = (Err (Wrapf "Cannot format package " Sample.syntax_error), w')
        ∧ trace w' = [EvCreate "/tmp/plgo/package.go"; EvFormatNode "/tmp/plgo/package.go"].
Proof.
  destruct (writeUserPackage_format_failure Cases.unprintable_env Sample.demo "/tmp/plgo"
              Sample.w0 Sample.syntax_error eq_refl eq_refl) as (w' & Hrun & Htrace & _).
  by exists w'.
Defined.

Lemma writeplgo_frame_witness :
  ∃ r w', writeplgo Cases.full_disk_env Sample.demo "/tmp/plgo" Cases.used_world = (r, w')
          ∧ files w' !! "/tmp/plgo/notes.txt" = Some "keep me"
          ∧ files w' !! "/tmp/plgo/pl.go" = Some "package".
Proof.
  destruct (writeplgo Cases.full_disk_env Sample.demo "/tmp/plgo" Cases.used_world)
    as [r w'] eqn:Hrun.
  exists r, w'. split; [done|].
  destruct (writeplgo_frame Cases.full_disk_env Sample.demo "/tmp/plgo" Cases.used_world
              r w' Hrun) as (Hframe & _).
  split; [by rewrite Hframe|].
  vm_compute in Hrun. injection Hrun as _ <-. by vm_compute.
Defined.

(* ===================================================================== *)
(** ** The template provider: readPlGoSource *)
(* ===================================================================== *)

Section ProviderFacts.
Variable env : Env.
Implicit Types (p c src version cache : string) (l : list string).

(** The search loops: the first candidate that [os.Stat] accepts. *)
Lemma first_found_split l :
  (∃ before after,
     l = before ++ first_found env l :: after
     ∧ os_Stat_ok env (first_found env l) = true
     ∧ Forall (fun q => os_Stat_ok env q = false) before)
  ∨ (first_found env l = "" ∧ Forall (fun q => os_Stat_ok env q = false) l).
Proof.
  induction l as [|c l IH]; simpl; [by right|].
  destruct (os_Stat_ok env c) eqn:Hc.
  - left. by exists [], l.
  - destruct IH as [(before & after & Hl & Hok & Hnone)|[Hempty Hnone]].
    + left. exists (c :: before), after. split_and!; [by rewrite Hl at 1|done|by constructor].
    + right. split; [done|by constructor].
Qed.

Lemma first_found_none l :
  (∀ q, q ∈ l → os_Stat_ok env q = false) → first_found env l = "".
Proof.
  induction l as [|c l IH]; intros Hall; simpl; [done|].
  rewrite (Hall c) by by left. apply IH. intros q Hq. apply Hall. by right.
Qed.

Lemma first_found_nonempty l :
  first_found env l ≠ "" →
  first_found env l ∈ l ∧ os_Stat_ok env (first_found env l) = true.
Proof.
  destruct (first_found_split l) as [(before & after & Hl & Hok & _)|[Hempty _]]; [|done].
  intros _. split; [|done]. rewrite Hl at 2. apply elem_of_app. right. by left.
Qed.

Lemma read_found_read p : p ≠ "" → read_found env p = read_template env p.
Proof. intros Hp. unfold read_found, read_template. by rewrite decide_False. Qed.

Lemma readPlGoSource_unfold :
  readPlGoSource env =
    let found := first_found env (src_candidates env) in
    if decide (found = "") then
      match versionInfo env plgo_module with
      | Err e => Err e
      | Panic q => Panic q
      | Ok version =>
          let found :=
            match os_LookupEnv env "GOMODCACHE" with
            | Some cache =>
                let path := filepath_Join env [cache; pathEnd env version] in
                if os_Stat_ok env path then path else found
            | None => found
            end in
          let found :=
            if decide (found = "") then first_found env (mod_candidates env version)
            else found in
          read_found env found
      end
    else read_found env found.
Proof. reflexivity. Qed.

(** X11.  Whatever [readPlGoSource] returns as the template was read from
    a file that [os.Stat] accepted, and that file is one of the candidates:
    [pl.go] under a [GOPATH] element, or, with the version pinned in
    [go.mod], [pl.go] in the module cache or under a [GOPATH] element's
    [pkg/mod]. *)
Theorem readPlGoSource_sound src :
  readPlGoSource env = Ok src →
  ∃ p, p ≠ "" ∧ os_Stat_ok env p = true ∧ ioutil_ReadFile env p = Ok src
       ∧ (p ∈ src_candidates env
          ∨ ∃ version, versionInfo env plgo_module = Ok version
                       ∧ p ∈ template_candidates env version (os_LookupEnv env "GOMODCACHE")).
Proof.
  assert (∀ p, read_found env p = Ok src → p ≠ "" ∧ ioutil_ReadFile env p = Ok src) as Hread.
  { intros p. unfold read_found. destruct (decide (p = "")); [done|].
    destruct (ioutil_ReadFile env p); naive_solver. }
  rewrite readPlGoSource_unfold. cbv zeta.
  destruct (decide (first_found env (src_candidates env) = "")) as [Hsrc|Hsrc].
  - rewrite Hsrc.
    destruct (versionInfo env plgo_module) as [version| |] eqn:Hver; [|done..].
    unfold template_candidates.
    destruct (os_LookupEnv env "GOMODCACHE") as [cache|].
    + destruct (os_Stat_ok env (filepath_Join env [cache; pathEnd env version])) eqn:Hstat.
      * destruct (decide (filepath_Join env [cache; pathEnd env version] = "")) as [Hc|Hc].
        -- intros [Hne Hr]%Hread.
           destruct (first_found_nonempty _ Hne) as [Hin Hok].
           eexists. split_and!; [done..|]. right. exists version. split; [done|].
           rewrite !elem_of_app. by right; right.
        -- intros [Hne Hr]%Hread.
           eexists. split_and!; [done..|]. right. exists version. split; [done|].
           rewrite !elem_of_app. right; left. by left.
      * rewrite decide_True by done. intros [Hne Hr]%Hread.
        destruct (first_found_nonempty _ Hne) as [Hin Hok].
        eexists. split_and!; [done..|]. right. exists version. split; [done|].
        rewrite !elem_of_app. by right; right.
    + rewrite decide_True by done. intros [Hne Hr]%Hread.
      destruct (first_found_nonempty _ Hne) as [Hin Hok].
      eexists. split_and!; [done..|]. right. exists version. split; [done|].
      rewrite !elem_of_app. by right; right.
  - intros [Hne Hr]%Hread. destruct (first_found_nonempty _ Hsrc) as [Hin Hok].
    eexists. split_and!; [done..|]. by left.
Qed.

(** X12.  A copy of the template under [GOPATH] wins: when [os.Stat]
    accepts a candidate of the first loop, the template is read from the
    first such candidate, and neither [go.mod] nor the module cache is
    looked at; a copy that cannot be read is an error, not a reason to look
    further.  ([os.Stat] is taken to reject the empty path.) *)
Theorem readPlGoSource_prefers_GOPATH c :
  os_Stat_ok env "" = false →
  c ∈ src_candidates env →
  os_Stat_ok env c = true →
  ∃ before p after,
    src_candidates env = before ++ p :: after
    ∧ Forall (fun q => os_Stat_ok env q = false) before
    ∧ os_Stat_ok env p = true
    ∧ readPlGoSource env = read_template env p.
Proof.
  intros Hstat Hc Hok.
  destruct (first_found_split (src_candidates env))
    as [(before & after & Hl & Hfound & Hnone)|[_ Hnone]].
  - exists before, (first_found env (src_candidates env)), after.
    split_and!; try done.
    assert (first_found env (src_candidates env) ≠ "") as Hne by congruence.
    rewrite readPlGoSource_unfold. cbv zeta. rewrite decide_False by done.
    by apply read_found_read.
  - rewrite Forall_forall in Hnone. rewrite (Hnone c Hc) in Hok. done.
Qed.

(** X13.  On a machine where [os.Stat] accepts no path, the answer is the
    error of the manifest resolver when it has one (so, without [go.mod],
    the advice to run [go mod init]), and the not-installed error only when
    the manifest pins a version. *)
Theorem readPlGoSource_nothing_found :
  (∀ p, os_Stat_ok env p = false) →
  readPlGoSource env =
    match versionInfo env plgo_module with
    | Ok _ => Err not_installed
    | Err e => Err e
    | Panic q => Panic q
    end.
Proof.
  intros Hnone. rewrite readPlGoSource_unfold. cbv zeta.
  rewrite (first_found_none (src_candidates env)) by auto.
  rewrite decide_True by done.
  destruct (versionInfo env plgo_module) as [version| |]; [|done..].
  assert ((match os_LookupEnv env "GOMODCACHE" with
           | Some cache =>
               if os_Stat_ok env (filepath_Join env [cache; pathEnd env version])
               then filepath_Join env [cache; pathEnd env version] else ""
           | None => ""
           end) = "") as ->.
  { destruct (os_LookupEnv env "GOMODCACHE"); [|done]. by rewrite Hnone. }
  rewrite decide_True by done.
  rewrite (first_found_none (mod_candidates env version)) by auto.
  unfold read_found. by rewrite decide_True.
Qed.

(** X14.  Without a copy under [GOPATH], the module cache named by
    [GOMODCACHE] comes before the [pkg/mod] directories of [GOPATH]: when
    [os.Stat] accepts the template of the pinned version there, that is the
    file read. *)
Theorem readPlGoSource_prefers_GOMODCACHE version cache :
  (∀ q, q ∈ src_candidates env → os_Stat_ok env q = false) →
  versionInfo env plgo_module = Ok version →
  os_LookupEnv env "GOMODCACHE" = Some cache →
  let p := filepath_Join env [cache; pathEnd env version] in
  os_Stat_ok env p = true →
  p ≠ "" →
  readPlGoSource env = read_template env p.
Proof.
  intros Hnone Hver Hcache p Hstat Hne. rewrite readPlGoSource_unfold. cbv zeta.
  rewrite (first_found_none (src_candidates env)) by auto.
  rewrite decide_True by done. rewrite Hver, Hcache. fold p. rewrite Hstat.
  rewrite decide_False by done. by apply read_found_read.
Qed.
End ProviderFacts.

Lemma readPlGoSource_sound_witness :
  ∃ p, os_Stat_ok Cases.cached_machine p = true
       ∧ ioutil_ReadFile Cases.cached_machine p = Ok Sample.good_template.
Proof.
  destruct (readPlGoSource_sound Cases.cached_machine Sample.good_template)
    as (p & _ & Hstat & Hread & _); [by vm_compute|].
  by exists p.
Defined.

Lemma readPlGoSource_prefers_GOPATH_witness :
  readPlGoSource Sample.good_env = Ok Sample.good_template.
Proof.
  destruct (readPlGoSource_prefers_GOPATH Sample.good_env Sample.template_path eq_refl)
    as (before & p & after & Hl & Hnone & Hok & Hrun).
  - apply list_elem_of_singleton. by vm_compute.
  - reflexivity.
  - rewrite Hrun. apply bool_decide_eq_true in Hok. by rewrite Hok.
Defined.

Lemma readPlGoSource_nothing_found_witness :
  readPlGoSource Cases.bare_machine = Err (Errorf "go.mod is missing. Please run go mod init")
  ∧ readPlGoSource Cases.pinned_machine = Err not_installed.
Proof.
  split.
  - by rewrite (readPlGoSource_nothing_found Cases.bare_machine (fun _ => eq_refl)).
  - by rewrite (readPlGoSource_nothing_found Cases.pinned_machine (fun _ => eq_refl)).
Defined.

Lemma readPlGoSource_prefers_GOMODCACHE_witness :
  readPlGoSource Cases.cached_machine = Ok Sample.good_template.
Proof.
  rewrite (readPlGoSource_prefers_GOMODCACHE Cases.cached_machine "v0.1.2" "/cache");
    try done.
  intros q Hq. apply list_elem_of_singleton in Hq as ->. by vm_compute.
Defined.

(* ===================================================================== *)
(** ** More on the glue source *)
(* ===================================================================== *)

Module ReplaceFacts.
Import Str StrFacts.

Lemma take_app_plus (pre rest : string) n :
  take (String.length pre + n) (pre +:+ rest) = pre +:+ take n rest.
Proof. induction pre as [|c pre IH]; [done|]. rewrite app_cons. simpl. by rewrite IH. Qed.

Lemma HasPrefix_first_byte c d (s old : string) :
  c ≠ d → HasPrefix (String c s) (String d old) = false.
Proof. intros Hne. unfold HasPrefix. simpl. by destruct (ascii_dec d c) as [->|]. Qed.

(** A match of [old] cannot begin inside a text that lacks the first byte
    of [old]. *)
Lemma Index_past_prefix (pre rest old : string) ch :
  Bytes.lacks ch pre = true →
  Index (pre +:+ rest) (String ch old)
  = (fun j => String.length pre + j) <$> Index rest (String ch old).
Proof.
  intros Hlacks. induction pre as [|c pre IH].
  - rewrite app_empty_l. by destruct (Index rest _).
  - simpl in Hlacks. apply andb_true_iff in Hlacks as [Hc Hlacks].
    apply negb_true_iff, Ascii.eqb_neq in Hc.
    rewrite app_cons, Index_cons, HasPrefix_first_byte by done.
    rewrite IH by done. by destruct (Index rest _).
Qed.

Lemma Replace1_past_prefix (pre rest old new : string) ch :
  Bytes.lacks ch pre = true →
  Replace1 (pre +:+ rest) (String ch old) new = pre +:+ Replace1 rest (String ch old) new.
Proof.
  intros Hlacks. unfold Replace1. rewrite (Index_past_prefix _ _ _ _ Hlacks).
  destruct (Index rest (String ch old)) as [j|]; simpl; [|done].
  rewrite take_app_plus, <-Nat.add_assoc, drop_app. by rewrite app_assoc.
Qed.

End ReplaceFacts.

Section GlueFacts.
Variable env : Env.
Implicit Types (mw : ModuleWriter) (w : World) (tmp tpl rest inc : string).

(** X15.  On a machine where [addOtherIncludesAndLDFLAGS] leaves the
    source as it is, the glue source written from any template of at least
    12 bytes begins with the line [package main] and an empty line:
    neither the include-path replacement nor the splice of the declarations
    can reach into the new package clause, whatever the include directory
    and the declarations are. *)
Theorem writeplgo_package_main_first mw tmp w tpl inc :
  (∀ src dir, addOtherIncludesAndLDFLAGS env src dir = src) →
  readPlGoSource env = Ok tpl →
  12 ≤ String.length tpl →
  pg_config_ok env inc →
  ioutil_WriteFile_err env (glue_path env tmp) = None →
  ∃ w' body, writeplgo env mw tmp w = (Ok tt, w')
             ∧ files w' !! glue_path env tmp = Some (package_clause +:+ body).
Proof.
  intros Hplain Hread Hlen Hpg Hwrite.
  assert (Str.slice_from tpl 12 = Some (Str.drop 12 tpl)) as Hslice.
  { unfold Str.slice_from. by rewrite decide_True. }
  set (rest := Str.drop 12 tpl) in *.
  rewrite (writeplgo_written env mw tmp w tpl rest inc Hread Hslice Hpg Hwrite).
  eexists _, _. split; [done|]. simpl. rewrite lookup_insert_eq. f_equal.
  unfold splice_declarations, prepare_template, funcdec_marker. rewrite Hplain.
  change ("package main" +:+ Str.LF +:+ Str.LF +:+ rest) with (package_clause +:+ rest).
  rewrite (ReplaceFacts.Replace1_past_prefix package_clause _
             "usr/include/postgresql/server" _ "/") by done.
  by rewrite (ReplaceFacts.Replace1_past_prefix package_clause _ "/{funcdec}" _ "/").
Qed.

(** X16.  Only the first marker is replaced: when a second marker follows
    the first in the prepared template, the glue source still holds a
    marker after the declarations have been spliced in. *)
Theorem writeplgo_second_marker_stays mw tmp w tpl rest inc (pre post : string) :
  readPlGoSource env = Ok tpl →
  Str.slice_from tpl 12 = Some rest →
  pg_config_ok env inc →
  ioutil_WriteFile_err env (glue_path env tmp) = None →
  prepare_template env rest inc = pre +:+ funcdec_marker +:+ post →
  Str.Index (pre +:+ funcdec_marker +:+ post) funcdec_marker = Some (String.length pre) →
  Str.Contains post funcdec_marker = true →
  ∃ w' text, writeplgo env mw tmp w = (Ok tt, w')
             ∧ files w' !! glue_path env tmp = Some text
             ∧ text = pre +:+ declarations (functions mw) +:+ post
             ∧ Str.Contains text funcdec_marker = true.
Proof.
  intros Hread Hslice Hpg Hwrite Hshape Hfirst Hsecond.
  rewrite (writeplgo_written env mw tmp w tpl rest inc Hread Hslice Hpg Hwrite).
  eexists _, _. split; [done|]. split; [simpl; apply lookup_insert_eq|].
  unfold splice_declarations. rewrite Hshape, StrFacts.Replace1_first by done.
  split; [done|]. apply StrFacts.Contains_iff.
  apply StrFacts.Contains_iff in Hsecond as (a & b & ->).
  exists (pre +:+ declarations (functions mw) +:+ a), b.
  by rewrite !StrFacts.app_assoc.
Qed.
End GlueFacts.

Lemma writeplgo_package_main_first_witness :
  ∃ w' body, writeplgo Sample.good_env Sample.demo "/tmp/plgo" Sample.w0 = (Ok tt, w')
             ∧ files w' !! "/tmp/plgo/pl.go" = Some (package_clause +:+ body).
Proof.
  apply (writeplgo_package_main_first Sample.good_env Sample.demo "/tmp/plgo" Sample.w0
           Sample.good_template Sample.include_dir); try done.
  simpl. lia.
Defined.

Lemma writeplgo_second_marker_stays_witness :
  ∃ w' text, writeplgo Cases.twice_env Sample.demo "/tmp/plgo" Sample.w0 = (Ok tt, w')
             ∧ files w' !! "/tmp/plgo/pl.go" = Some text
             ∧ Str.Contains text funcdec_marker = true.
Proof.
  destruct (writeplgo_second_marker_stays Cases.twice_env Sample.demo "/tmp/plgo" Sample.w0
              Cases.twice_template (Str.drop 12 Cases.twice_template) Sample.include_dir
              (package_clause +:+ Str.LF) (Str.LF +:+ "//{funcdec}" +:+ Str.LF)
              eq_refl eq_refl eq_refl eq_refl eq_refl eq_refl eq_refl)
    as (w' & text & Hrun & Hfile & _ & Hmarker).
  by exists w', text.
Defined.

(* ===================================================================== *)
(** ** More on WriteModule *)
(* ===================================================================== *)

Section AssemblerFacts.
Variable env : Env.
Implicit Types (mw : ModuleWriter) (w : World) (tmp : string).

Lemma writeExportedMethods_frame mw tmp w r w' :
  writeExportedMethods env mw tmp w = (r, w') →
  ∀ q, q ≠ methods_path env tmp → files w' !! q = files w !! q.
Proof.
  intros Hrun q Hq. destruct (writeExportedMethods_cases _ _ _ _ _ _ Hrun)
    as [[_ ->]|[(_ & code & n & _ & ->)|(_ & code & _ & ->)]]; [done|..];
    by rewrite lookup_insert_ne.
Qed.

(** The steps after the build directory is known, as one computation. *)
Lemma WriteModule_from mw w tmp w1 :
  buildPath env w = (Ok tmp, w1) →
  WriteModule env mw w =
    bind (writeUserPackage env mw tmp)
         (fun mw' => bind (writeplgo env mw' tmp)
                       (fun _ => bind (writeExportedMethods env mw' tmp)
                                   (fun _ => ret tmp))) w1.
Proof.
  intros Hbuild.
  assert (wrap "Cannot get tempdir: " (buildPath env) w = (Ok tmp, w1)) as Hstart.
  { unfold wrap. by rewrite Hbuild. }
  unfold WriteModule. by rewrite (bind_Ok _ _ _ _ _ Hstart).
Qed.

(** X17.  Whatever the outcome of [WriteModule] (nil, an error or a
    panic), once the build directory is known no file is changed other than
    [package.go], [pl.go] and [methods.go] in it. *)
Theorem WriteModule_frame mw w tmp w1 r w' :
  buildPath env w = (Ok tmp, w1) →
  WriteModule env mw w = (r, w') →
  ∀ q, q ≠ package_path env tmp → q ≠ glue_path env tmp → q ≠ methods_path env tmp →
       files w' !! q = files w1 !! q.
Proof.
  intros Hbuild. rewrite (WriteModule_from _ _ _ _ Hbuild).
  intros Hrun q Hpkg Hglue Hmethods.
  destruct (writeUserPackage env mw tmp w1) as [[mw'|e|p] w2] eqn:Huser.
  2: { rewrite (bind_Err _ _ _ _ _ Huser) in Hrun. injection Hrun as <- <-.
       by apply (writeUserPackage_frame _ _ _ _ _ _ Huser). }
  2: { rewrite (bind_Panic _ _ _ _ _ Huser) in Hrun. injection Hrun as <- <-.
       by apply (writeUserPackage_frame _ _ _ _ _ _ Huser). }
  rewrite (bind_Ok _ _ _ _ _ Huser) in Hrun.
  pose proof (writeUserPackage_frame _ _ _ _ _ _ Huser q Hpkg) as <-.
  destruct (writeplgo env mw' tmp w2) as [[[]|e|p] w3] eqn:Hplgo.
  2: { rewrite (bind_Err _ _ _ _ _ Hplgo) in Hrun. injection Hrun as <- <-.
       by apply (writeplgo_touches_glue_only _ _ _ _ _ _ Hplgo). }
  2: { rewrite (bind_Panic _ _ _ _ _ Hplgo) in Hrun. injection Hrun as <- <-.
       by apply (writeplgo_touches_glue_only _ _ _ _ _ _ Hplgo). }
  rewrite (bind_Ok _ _ _ _ _ Hplgo) in Hrun.
  rewrite <-(writeplgo_touches_glue_only _ _ _ _ _ _ Hplgo q Hglue).
  destruct (writeExportedMethods env mw' tmp w3) as [[[]|e|p] w4] eqn:Hwrap.
  - rewrite (bind_Ok _ _ _ _ _ Hwrap) in Hrun. injection Hrun as <- <-.
    by apply (writeExportedMethods_frame _ _ _ _ _ Hwrap).
  - rewrite (bind_Err _ _ _ _ _ Hwrap) in Hrun. injection Hrun as <- <-.
    by apply (writeExportedMethods_frame _ _ _ _ _ Hwrap).
  - rewrite (bind_Panic _ _ _ _ _ Hwrap) in Hrun. injection Hrun as <- <-.
    by apply (writeExportedMethods_frame _ _ _ _ _ Hwrap).
Qed.


(** X19.  Nothing is cleaned up: when the wrappers do not format, the
    run stops with the formatter's error and [package.go] and [pl.go],
    written by the two steps before, are still in the build directory. *)
Theorem WriteModule_leaves_earlier_files mw w tmp w1 mw' w2 w3 (e : error) :
  buildPath env w = (Ok tmp, w1) →
  writeUserPackage env mw tmp w1 = (Ok mw', w2) →
  writeplgo env mw' tmp w2 = (Ok tt, w3) →
  format_Source env (methods_buffer (functions mw)) = Err e →
  WriteModule env mw w = (Err e, w3)
  ∧ is_Some (files w3 !! package_path env tmp)
  ∧ is_Some (files w3 !! glue_path env tmp).
Proof.
  intros Hbuild Huser Hplgo Hfmt.
  destruct (writeUserPackage_Ok _ _ _ _ _ _ Huser) as (-> & pkgtext & _ & Hf2).
  destruct (writeplgo_cases _ _ _ _ _ _ Hplgo)
    as [[? _]|[[? _]|(_ & tpl & rest & inc & _ & _ & _ & Hf3)]]; [done..|].
  split_and!.
  - rewrite (WriteModule_from _ _ _ _ Hbuild), (bind_Ok _ _ _ _ _ Huser),
      (bind_Ok _ _ _ _ _ Hplgo).
    apply bind_Err. by apply writeExportedMethods_format_error.
  - rewrite Hf3, Hf2.
    destruct (decide (glue_path env tmp = package_path env tmp)) as [->|Hne].
    + rewrite lookup_insert_eq. by eexists.
    + rewrite lookup_insert_ne, lookup_insert_eq by done. by eexists.
  - rewrite Hf3, lookup_insert_eq. by eexists.
Qed.

(** X20.  A template of fewer than 12 bytes makes [WriteModule] panic,
    and by then [package.go] has been written: the panic comes from the
    second step and the first is not undone. *)
Theorem WriteModule_short_template mw w tmp w1 mw' w2 (tpl : string) :
  buildPath env w = (Ok tmp, w1) →
  writeUserPackage env mw tmp w1 = (Ok mw', w2) →
  readPlGoSource env = Ok tpl →
  String.length tpl < 12 →
  WriteModule env mw w = (Panic "slice bounds out of range", w2)
  ∧ is_Some (files w2 !! package_path env tmp).
Proof.
  intros Hbuild Huser Hread Hlen.
  assert (writeplgo env mw' tmp w2 = (Panic "slice bounds out of range", w2)) as Hpanic.
  { unfold writeplgo, bind, lift, Str.slice_from. rewrite Hread.
    by rewrite decide_False by lia. }
  split.
  - rewrite (WriteModule_from _ _ _ _ Hbuild), (bind_Ok _ _ _ _ _ Huser).
    by apply bind_Panic.
  - destruct (writeUserPackage_Ok _ _ _ _ _ _ Huser) as (_ & pkgtext & _ & ->).
    rewrite lookup_insert_eq. by eexists.
Qed.
End AssemblerFacts.

Lemma WriteModule_frame_witness :
  ∃ r w', WriteModule Sample.good_env Sample.demo Cases.used_world = (r, w')
          ∧ files w' !! "/tmp/plgo/notes.txt" = Some "keep me".
Proof.
  destruct (WriteModule Sample.good_env Sample.demo Cases.used_world) as [r w'] eqn:Hrun.
  exists r, w'. split; [done|].
  by rewrite (WriteModule_frame Sample.good_env Sample.demo Cases.used_world "/tmp/plgo"
                Cases.used_world r w' eq_refl Hrun).
Defined.


Lemma WriteModule_leaves_earlier_files_witness :
  ∃ w3, WriteModule Sample.unformattable_env Sample.demo Sample.w0
          = (Err Sample.syntax_error, w3)
        ∧ is_Some (files w3 !! "/tmp/plgo/package.go")
        ∧ is_Some (files w3 !! "/tmp/plgo/pl.go").
Proof.
  eassert (writeUserPackage Sample.unformattable_env Sample.demo "/tmp/plgo" Sample.w0
           = (Ok _, _)) as Hu by (vm_compute; reflexivity).
  match type of Hu with
  | _ = (Ok ?m, ?w2) =>
      eassert (writeplgo Sample.unformattable_env m "/tmp/plgo" w2 = (Ok tt, _))
        as Hg by (vm_compute; reflexivity)
  end.
  eexists.
  exact (WriteModule_leaves_earlier_files Sample.unformattable_env Sample.demo Sample.w0
           "/tmp/plgo" Sample.w0 _ _ _ Sample.syntax_error eq_refl Hu Hg eq_refl).
Defined.

Lemma WriteModule_short_template_witness :
  ∃ w2, WriteModule Sample.short_env Sample.demo Sample.w0
          = (Panic "slice bounds out of range", w2)
        ∧ is_Some (files w2 !! "/tmp/plgo/package.go").
Proof.
  eassert (writeUserPackage Sample.short_env Sample.demo "/tmp/plgo" Sample.w0
           = (Ok _, _)) as Hu by (vm_compute; reflexivity).
  eexists.
  apply (WriteModule_short_template Sample.short_env Sample.demo Sample.w0
           "/tmp/plgo" Sample.w0 _ _ "short" eq_refl Hu eq_refl).
  simpl. lia.
Defined.

(* ===================================================================== *)
(** ** More on the wrapper source and the packaging artifacts *)
(* ===================================================================== *)

Section ArtifactFacts.
Variable env : Env.
Implicit Types (mw : ModuleWriter) (w : World) (fs : list CodeWriter).

(** X21.  [writeExportedMethods] never puts unformatted text into
    [methods.go]: when [format.Source] does not succeed no file changes,
    and otherwise [methods.go] is left as it was or holds what
    [format.Source] returned for the header followed by the wrappers, up to
    some byte: all of it when nil is returned, and what a failed write got
    through otherwise.  No other file changes. *)
Theorem writeExportedMethods_outcome mw (tmp : string) w r w' :
  writeExportedMethods env mw tmp w = (r, w') →
  (∀ q, q ≠ methods_path env tmp → files w' !! q = files w !! q)
  ∧ (files w' = files w
     ∨ ∃ code n,
         format_Source env (methods_header +:+ Str.concat (map Code (functions mw))) = Ok code
         ∧ files w' = <[methods_path env tmp := Str.take n code]> (files w))
  ∧ (r = Ok tt →
     ∃ code, format_Source env (methods_header +:+ Str.concat (map Code (functions mw))) = Ok code
             ∧ files w' = <[methods_path env tmp := code]> (files w))
  ∧ ((∀ code, format_Source env (methods_buffer (functions mw)) ≠ Ok code) →
     files w' = files w).
Proof.
  intros Hrun. split.
  { intros q Hq. destruct (writeExportedMethods_cases _ _ _ _ _ _ Hrun)
      as [[_ ->]|[(_ & code & n & _ & ->)|(_ & code & _ & ->)]]; [done|..];
      by rewrite lookup_insert_ne. }
  destruct (writeExportedMethods_cases _ _ _ _ _ _ Hrun)
    as [[Hr Hsame]|[(Hr & code & n & Hfmt & Hfiles)|(-> & code & Hfmt & Hfiles)]].
  - split_and!; [by left|done|done].
  - split_and!; [right; by exists code, n|done|]. intros Hnone. by destruct (Hnone code).
  - split_and!; [|intros _; by exists code|intros Hnone; by destruct (Hnone code)].
    right. exists code, (String.length code). split; [done|].
    by rewrite (take_all code).
Qed.

Lemma write_statements_files (sqlPath name : string) fs w (held : string) :
  writes_complete env sqlPath →
  files w !! sqlPath = Some held →
  ∃ w', write_statements env sqlPath name fs w = (Ok tt, w')
        ∧ files w' = <[sqlPath := held +:+ Str.concat (statements name fs)]> (files w).
Proof.
  intros Hfull. revert w held. induction fs as [|f fs IH]; intros w held Hheld.
  - exists w. split; [done|]. simpl. rewrite StrFacts.app_empty_r. by rewrite insert_id.
  - set (w1 := append_file sqlPath (SQL f name) (log (EvWriteString sqlPath (SQL f name)) w)).
    assert (files w1 = <[sqlPath := held +:+ SQL f name]> (files w)) as Hw1.
    { unfold w1, append_file, put_file. simpl. by rewrite Hheld. }
    destruct (IH w1 (held +:+ SQL f name)) as (w' & Hrun & Hfiles).
    { rewrite Hw1. apply lookup_insert_eq. }
    exists w'. split.
    + simpl. unfold bind. rewrite File_WriteString_complete by done. fold w1.
      by rewrite Hrun.
    + rewrite Hfiles, Hw1, insert_insert_eq. simpl. by rewrite StrFacts.app_assoc.
Qed.

(** The loop of [WriteSQL] never stops early: a write that falls short
    is not noticed. *)
Lemma write_statements_Ok (sqlPath name : string) fs w :
  (write_statements env sqlPath name fs w).1 = Ok tt.
Proof.
  revert w. induction fs as [|f fs IH]; intros w; [done|].
  simpl. unfold bind, File_WriteString. apply IH.
Qed.

(** X22.  [WriteSQL] reports the failure to create the script, as the
    error [os.Create] gave and with nothing written, and reports nothing
    else: once the script is created it returns nil, also when a write
    falls short or closing the file fails.  When every write goes through,
    the script holds the header and the statements in list order, whatever
    the file held before, and no other file has changed. *)
Theorem WriteSQL_outcome mw (tmp : string) w :
  let p := sql_path env mw tmp in
  (os_Create_err env p = None → (WriteSQL env mw tmp w).1 = Ok tt)
  ∧ (os_Create_err env p = None →
     writes_complete env p →
     ∃ w', WriteSQL env mw tmp w = (Ok tt, w')
           ∧ files w' = <[p := sql_script mw]> (files w))
  ∧ (∀ e, os_Create_err env p = Some e →
          WriteSQL env mw tmp w = (Err e, log (EvCreate p) w)).
Proof.
  cbv zeta. unfold sql_path. set (p := filepath_Join env _). split_and!.
  - intros Hcreate. unfold WriteSQL, bind, os_Create. fold p. rewrite Hcreate.
    unfold File_WriteString at 1.
    match goal with
    | |- context [write_statements env p ?name ?fs ?w0] =>
        pose proof (write_statements_Ok p name fs w0) as Hloop;
        destruct (write_statements env p name fs w0) as [r3 w3]
    end.
    simpl in Hloop. subst r3. unfold deferred, File_Close.
    by destruct (File_Close_err env p).
  - intros Hcreate Hfull. set (name := PackageName mw).
    set (w1 := put_file p "" (log (EvCreate p) w)).
    set (w2 := append_file p (sql_header name) (log (EvWriteString p (sql_header name)) w1)).
    assert (files w2 = <[p := sql_header name]> (files w)) as Hw2.
    { unfold w2, append_file, put_file, w1. simpl.
      by rewrite lookup_insert_eq, insert_insert_eq. }
    destruct (write_statements_files p name (functions mw) w2 (sql_header name) Hfull)
      as (w3 & Hrun & Hfiles).
    { rewrite Hw2. apply lookup_insert_eq. }
    exists (log (EvClose p) w3). split.
    + unfold WriteSQL, bind, os_Create, deferred, File_Close.
      fold p name. rewrite Hcreate. fold w1.
      rewrite File_WriteString_complete by done. fold w2. rewrite Hrun.
      by destruct (File_Close_err env p).
    + simpl. by rewrite Hfiles, Hw2, insert_insert_eq.
  - intros e Hcreate. unfold WriteSQL, bind, os_Create. fold p. by rewrite Hcreate.
Qed.

(** X23.  For every module name the artifacts agree on their names: the
    build descriptor opens with the line [EXTENSION = name], lists as
    [DATA] the very file name [WriteSQL] creates and as [MODULES] the name
    itself, and the extension descriptor, written to [name.control], holds
    [name extension]. *)
Theorem artifacts_agree_on_names mw (dir : string) :
  let name := PackageName mw in
  ∃ script stem,
    sql_path env mw dir = filepath_Join env [dir; script]
    ∧ control_path env mw dir = filepath_Join env [dir; stem +:+ ".control"]
    ∧ Str.HasPrefix (makefile_text name) ("EXTENSION = " +:+ stem +:+ Str.LF) = true
    ∧ Str.Contains (makefile_text name) (Str.LF +:+ "DATA = " +:+ script +:+ " ") = true
    ∧ Str.Contains (makefile_text name) (Str.LF +:+ "MODULES = " +:+ name +:+ " ") = true
    ∧ Str.Contains (control_text name) (name +:+ " extension") = true.
Proof.
  intros name. exists (name +:+ "--0.1.sql"), name. split_and!; try done.
  - apply StrFacts.HasPrefix_iff.
    exists ("DATA = " +:+ name +:+ "--0.1.sql  # script files to install" +:+ Str.LF +:+
            "# REGRESS = " +:+ name +:+
            "_test     # our test script file (without extension)" +:+ Str.LF +:+
            "MODULES = " +:+ name +:+ "          # our c module file to build" +:+ Str.LF +:+
            "override with_llvm = no" +:+ Str.LF +:+ Str.LF +:+
            "# postgres build stuff" +:+ Str.LF +:+ "PG_CONFIG = pg_config" +:+ Str.LF +:+
            "PGXS := $(shell $(PG_CONFIG) --pgxs)" +:+ Str.LF +:+ "include $(PGXS)").
    unfold makefile_text. by rewrite !StrFacts.app_assoc.
  - apply StrFacts.Contains_iff.
    exists ("EXTENSION = " +:+ name),
      (" # script files to install" +:+ Str.LF +:+
       "# REGRESS = " +:+ name +:+ "_test     # our test script file (without extension)"
       +:+ Str.LF +:+
       "MODULES = " +:+ name +:+ "          # our c module file to build" +:+ Str.LF +:+
       "override with_llvm = no" +:+ Str.LF +:+ Str.LF +:+
       "# postgres build stuff" +:+ Str.LF +:+ "PG_CONFIG = pg_config" +:+ Str.LF +:+
       "PGXS := $(shell $(PG_CONFIG) --pgxs)" +:+ Str.LF +:+ "include $(PGXS)").
    unfold makefile_text. by rewrite !StrFacts.app_assoc.
  - apply StrFacts.Contains_iff.
    exists ("EXTENSION = " +:+ name +:+ Str.LF +:+
            "DATA = " +:+ name +:+ "--0.1.sql  # script files to install" +:+ Str.LF +:+
            "# REGRESS = " +:+ name +:+
            "_test     # our test script file (without extension)"),
      ("         # our c module file to build" +:+ Str.LF +:+
       "override with_llvm = no" +:+ Str.LF +:+ Str.LF +:+
       "# postgres build stuff" +:+ Str.LF +:+ "PG_CONFIG = pg_config" +:+ Str.LF +:+
       "PGXS := $(shell $(PG_CONFIG) --pgxs)" +:+ Str.LF +:+ "include $(PGXS)").
    unfold makefile_text. by rewrite !StrFacts.app_assoc.
  - apply StrFacts.Contains_iff.
    exists "# ", (Str.LF +:+ "comment = '" +:+ name +:+ " extension'" +:+ Str.LF +:+
                  "default_version = '0.1'" +:+ Str.LF +:+ "relocatable = true").
    unfold control_text. by rewrite !StrFacts.app_assoc.
Qed.
End ArtifactFacts.

Lemma writeExportedMethods_outcome_witness :
  (∃ w', writeExportedMethods Sample.unformattable_env Sample.demo "/tmp/plgo"
           Cases.used_world = (Err Sample.syntax_error, w')
         ∧ files w' = files Cases.used_world)
  ∧ (∃ r w', writeExportedMethods Cases.full_disk_env Sample.demo "/tmp/plgo"
               Cases.used_world = (r, w')
             ∧ files w' !! "/tmp/plgo/notes.txt" = Some "keep me"
             ∧ files w' !! "/tmp/plgo/methods.go" = Some "package").
Proof.
  split.
  - eexists. split; [reflexivity|].
    destruct (writeExportedMethods_outcome Sample.unformattable_env Sample.demo "/tmp/plgo"
                Cases.used_world _ _ eq_refl) as (_ & _ & _ & Hnone).
    by apply Hnone.
  - destruct (writeExportedMethods Cases.full_disk_env Sample.demo "/tmp/plgo"
                Cases.used_world) as [r w'] eqn:Hrun.
    exists r, w'. split; [done|].
    destruct (writeExportedMethods_outcome Cases.full_disk_env Sample.demo "/tmp/plgo"
                Cases.used_world r w' Hrun) as (Hframe & _).
    split; [by rewrite Hframe|].
    vm_compute in Hrun. injection Hrun as _ <-. by vm_compute.
Defined.

(** On the full disk the script stops short and [WriteSQL] says nil. *)
Lemma WriteSQL_outcome_witness :
  (∃ w', WriteSQL Cases.unclosable_env Sample.demo "/out" Sample.w0 = (Ok tt, w')
         ∧ files w' !! "/out/demo--0.1.sql" = Some (sql_script Sample.demo))
  ∧ (∃ w', WriteSQL Cases.full_disk_env Sample.demo "/out" Sample.w0 = (Ok tt, w')
           ∧ files w' !! "/out/demo--0.1.sql" = Some "-- CRECRE")
  ∧ WriteSQL Cases.readonly_env Sample.demo "/out" Sample.w0
    = (Err Cases.permission_denied, log (EvCreate "/out/demo--0.1.sql") Sample.w0).
Proof.
  split_and!.
  - destruct (WriteSQL_outcome Cases.unclosable_env Sample.demo "/out" Sample.w0)
      as (_ & Hok & _).
    destruct (Hok eq_refl (fun _ _ => eq_refl)) as (w' & Hrun & Hfiles).
    exists w'. split; [done|]. rewrite Hfiles. apply lookup_insert_eq.
  - destruct (WriteSQL_outcome Cases.full_disk_env Sample.demo "/out" Sample.w0)
      as (Hnil & _).
    specialize (Hnil eq_refl).
    destruct (WriteSQL Cases.full_disk_env Sample.demo "/out" Sample.w0) as [r w'] eqn:Hrun.
    simpl in Hnil. subst r. exists w'. split; [done|].
    vm_compute in Hrun. injection Hrun as <-. by vm_compute.
  - destruct (WriteSQL_outcome Cases.readonly_env Sample.demo "/out" Sample.w0)
      as (_ & _ & Hfail).
    exact (Hfail _ eq_refl).
Defined.

(* ===================================================================== *)
(** ** The errors of the manifest resolver *)
(* ===================================================================== *)

(** X24.  An error of [versionInfo] is one of four: the advice to run
    [go mod init], exactly when reading [go.mod] failed because the file
    does not exist; any other read error, as it is; the parser's error, as
    it is; or the cannot-find error naming the identifier, exactly when the
    parsed manifest has no requirement of that path. *)
Theorem versionInfo_errors (env : Env) (m : string) (e : error) :
  versionInfo env m = Err e →
  (∃ e0, ioutil_ReadFile env "go.mod" = Err e0 ∧ os_IsNotExist e0 = true
         ∧ e = Errorf "go.mod is missing. Please run go mod init")
  ∨ (ioutil_ReadFile env "go.mod" = Err e ∧ os_IsNotExist e = false)
  ∨ (∃ gomod, ioutil_ReadFile env "go.mod" = Ok gomod
              ∧ modfile_Parse env "go.mod" gomod = Err e)
  ∨ (∃ gomod reqs, ioutil_ReadFile env "go.mod" = Ok gomod
                   ∧ modfile_Parse env "go.mod" gomod = Ok reqs
                   ∧ (∀ req, req ∈ reqs → Mod_Path req ≠ m)
                   ∧ e = Errorf ("Cannot find " +:+ m +:+ " in go.mod")).
Proof.
  unfold versionInfo.
  destruct (ioutil_ReadFile env "go.mod") as [gomod|e0|p] eqn:Hread; [| |done].
  - destruct (modfile_Parse env "go.mod" gomod) as [reqs|e1|p] eqn:Hparse; [| |done].
    + destruct (find_version reqs m) as [v|] eqn:Hfind; [done|]. intros [= <-].
      right; right; right. exists gomod, reqs. split_and!; try done.
      by apply find_version_None.
    + intros [= <-]. right; right; left. by exists gomod.
  - destruct (os_IsNotExist e0) eqn:Hmissing; intros [= <-].
    + left. by exists e0.
    + right; left. done.
Qed.

Lemma versionInfo_errors_witness :
  ioutil_ReadFile Cases.unreadable_gomod_env "go.mod" = Err Cases.permission_denied.
Proof.
  destruct (versionInfo_errors Cases.unreadable_gomod_env plgo_module Cases.permission_denied
              eq_refl) as [(e0 & _ & _ & Habs)|[[Hread _]|[(g & Habs & _)|(g & r & Habs & _)]]];
    done.
Defined.
